(** * Migration of legacy JSON claims to the protobuf claim (package [claim])

    A shallow embedding of the Go file that turns the three legacy JSON
    claim generations (V1, V2, V3) into a [pb.Claim], and the properties
    of that migration.

    Conventions of the embedding.
    - A Go pointer is an [option ptr]: [None] is [nil], [Some l] an
      address.  The objects that the code allocates with [new] and then
      updates through pointers live in a [Heap], one store per Go type
      (pointers of different types never alias).
    - Code that reads or writes the heap runs in the monad [M]: a
      function of the heap that yields a value and the next heap, or
      [None] when Go would panic on a nil dereference.  Every property
      below shows, among other things, that the migrators never do.
    - A Go [string] is a [string] (a sequence of bytes), a [[]byte] is a
      [list Z] of values in [0, 256); a nil slice and an empty slice are
      both [[]].
    - A [float32] is never computed with: it is only copied.  It is kept
      as its IEEE-754 binary32 bit pattern. *)

From Stdlib Require Import ZArith String Ascii List Lia.
From stdpp Require Import base option gmap strings list.

Local Open Scope string_scope.
Local Open Scope Z_scope.

(** ** Basic Go types *)

Definition float32 := Z.

(** The literal [float32(0.0)]: all 32 bits clear. *)
Definition float32_zero : float32 := 0.

Definition bytes := list Z.

(** [[]byte(s)]: the bytes of a Go string. *)
Definition bytes_of_string (s : string) : bytes :=
  map (fun c => Z.of_N (N_of_ascii c)) (list_ascii_of_string s).

(** Addresses of heap objects; a Go pointer is an [option ptr]. *)
Definition ptr := positive.

(** ** Package [pb]: the protobuf messages

    The generated Go package is imported by the source, it is not part of
    it.  The records below have the fields that the source reads or
    writes, under their Go names; an optional scalar field ([*string],
    [*bool], an enum pointer) is an [option].  The enumerations carry the
    members that the source names, next to their zero member. *)
Module pb.

Inductive Claim_Version := Claim_UNKNOWN_VERSION | Claim__0_0_1.
Inductive Claim_ClaimType :=
  Claim_UNKNOWN_CLAIM_TYPE | Claim_streamType | Claim_certificateType.
Inductive Stream_Version := Stream_UNKNOWN_VERSION | Stream__0_0_1.
Inductive Metadata_Version :=
  | Metadata_UNKNOWN_VERSION
  | Metadata__0_0_1 | Metadata__0_0_2 | Metadata__0_0_3 | Metadata__0_1_0.
Inductive Source_Version := Source_UNKNOWN_VERSION | Source__0_0_1.
Inductive Fee_Version := Fee_UNKNOWN_VERSION | Fee__0_0_1.
Inductive Fee_Currency := Fee_UNKNOWN_CURRENCY | Fee_LBC | Fee_BTC | Fee_USD.

(** [type Metadata_Language int32] and [type Source_SourceTypes int32]:
    the source builds both by converting an [int32] read from a table. *)
Definition Metadata_Language := Z.
Definition Source_SourceTypes := Z.

Module Fee.
Record t := mk {
  Version : option Fee_Version;
  Currency : option Fee_Currency;
  Address : bytes;
  Amount : option float32
}.
(** [new(pb.Fee)] *)
Definition zero : t := mk None None [] None.
Definition set_Version v (m : t) := mk v (Currency m) (Address m) (Amount m).
Definition set_Currency v (m : t) := mk (Version m) v (Address m) (Amount m).
Definition set_Address v (m : t) := mk (Version m) (Currency m) v (Amount m).
Definition set_Amount v (m : t) := mk (Version m) (Currency m) (Address m) v.
End Fee.

Module Source.
Record t := mk {
  Version : option Source_Version;
  SourceType : option Source_SourceTypes;
  Source : bytes;
  ContentType : option string
}.
Definition zero : t := mk None None [] None.
Definition set_Version v (m : t) := mk v (SourceType m) (Source m) (ContentType m).
Definition set_SourceType v (m : t) := mk (Version m) v (Source m) (ContentType m).
Definition set_Source v (m : t) := mk (Version m) (SourceType m) v (ContentType m).
Definition set_ContentType v (m : t) := mk (Version m) (SourceType m) (Source m) v.
End Source.

Module Signature.
(** No field of a signature is read or written by the source. *)
Record t := mk { }.
Definition zero : t := mk.
End Signature.

(** The messages that point to other messages are parametrised by what
    stands for the pointer: an address in the heap, or the message
    itself once the heap has been read back (see [view_Claim]). *)
Module Metadata.
Record t {F : Type} := mk {
  Version : option Metadata_Version;
  Language : option Metadata_Language;
  Title : option string;
  Description : option string;
  Author : option string;
  License : option string;
  Nsfw : option bool;
  Fee : option F;
  Thumbnail : option string;
  LicenseUrl : option string
}.
Arguments t : clear implicits.
Arguments mk {F}.
Definition zero {F} : t F :=
  mk None None None None None None None None None None.
Section Updates.
Context {F : Type}.
Definition set_Version v (m : t F) : t F :=
  mk v (Language m) (Title m) (Description m) (Author m) (License m)
     (Nsfw m) (Fee m) (Thumbnail m) (LicenseUrl m).
Definition set_Language v (m : t F) : t F :=
  mk (Version m) v (Title m) (Description m) (Author m) (License m)
     (Nsfw m) (Fee m) (Thumbnail m) (LicenseUrl m).
Definition set_Title v (m : t F) : t F :=
  mk (Version m) (Language m) v (Description m) (Author m) (License m)
     (Nsfw m) (Fee m) (Thumbnail m) (LicenseUrl m).
Definition set_Description v (m : t F) : t F :=
  mk (Version m) (Language m) (Title m) v (Author m) (License m)
     (Nsfw m) (Fee m) (Thumbnail m) (LicenseUrl m).
Definition set_Author v (m : t F) : t F :=
  mk (Version m) (Language m) (Title m) (Description m) v (License m)
     (Nsfw m) (Fee m) (Thumbnail m) (LicenseUrl m).
Definition set_License v (m : t F) : t F :=
  mk (Version m) (Language m) (Title m) (Description m) (Author m) v
     (Nsfw m) (Fee m) (Thumbnail m) (LicenseUrl m).
Definition set_Nsfw v (m : t F) : t F :=
  mk (Version m) (Language m) (Title m) (Description m) (Author m) (License m)
     v (Fee m) (Thumbnail m) (LicenseUrl m).
Definition set_Fee v (m : t F) : t F :=
  mk (Version m) (Language m) (Title m) (Description m) (Author m) (License m)
     (Nsfw m) v (Thumbnail m) (LicenseUrl m).
Definition set_Thumbnail v (m : t F) : t F :=
  mk (Version m) (Language m) (Title m) (Description m) (Author m) (License m)
     (Nsfw m) (Fee m) v (LicenseUrl m).
Definition set_LicenseUrl v (m : t F) : t F :=
  mk (Version m) (Language m) (Title m) (Description m) (Author m) (License m)
     (Nsfw m) (Fee m) (Thumbnail m) v.
End Updates.
End Metadata.

Module Stream.
Record t {Md Src : Type} := mk {
  Version : option Stream_Version;
  Metadata : option Md;
  Source : option Src
}.
Arguments t : clear implicits.
Arguments mk {Md Src}.
Definition zero {Md Src} : t Md Src := mk None None None.
Definition set_Version {Md Src} v (m : t Md Src) : t Md Src := mk v (Metadata m) (Source m).
Definition set_Metadata {Md Src} v (m : t Md Src) : t Md Src := mk (Version m) v (Source m).
Definition set_Source {Md Src} v (m : t Md Src) : t Md Src := mk (Version m) (Metadata m) v.
End Stream.

Module Claim.
Record t {St Sig : Type} := mk {
  Version : option Claim_Version;
  ClaimType : option Claim_ClaimType;
  Stream : option St;
  PublisherSignature : option Sig
}.
Arguments t : clear implicits.
Arguments mk {St Sig}.
Definition zero {St Sig} : t St Sig := mk None None None None.
Definition set_Version {St Sig} v (m : t St Sig) : t St Sig :=
  mk v (ClaimType m) (Stream m) (PublisherSignature m).
Definition set_ClaimType {St Sig} v (m : t St Sig) : t St Sig :=
  mk (Version m) v (Stream m) (PublisherSignature m).
Definition set_Stream {St Sig} v (m : t St Sig) : t St Sig :=
  mk (Version m) (ClaimType m) v (PublisherSignature m).
Definition set_PublisherSignature {St Sig} v (m : t St Sig) : t St Sig :=
  mk (Version m) (ClaimType m) (Stream m) v.
End Claim.

End pb.

(** ** The heap *)

Record Heap := mkHeap {
  claims : gmap ptr (pb.Claim.t ptr ptr);
  streams : gmap ptr (pb.Stream.t ptr ptr);
  metadatas : gmap ptr (pb.Metadata.t ptr);
  sources : gmap ptr pb.Source.t;
  fees : gmap ptr pb.Fee.t;
  signatures : gmap ptr pb.Signature.t
}.

Definition empty_heap : Heap := mkHeap ∅ ∅ ∅ ∅ ∅ ∅.

Definition with_claims (f : gmap ptr (pb.Claim.t ptr ptr) -> gmap ptr (pb.Claim.t ptr ptr))
    (h : Heap) : Heap :=
  mkHeap (f (claims h)) (streams h) (metadatas h) (sources h) (fees h) (signatures h).
Definition with_streams (f : gmap ptr (pb.Stream.t ptr ptr) -> gmap ptr (pb.Stream.t ptr ptr))
    (h : Heap) : Heap :=
  mkHeap (claims h) (f (streams h)) (metadatas h) (sources h) (fees h) (signatures h).
Definition with_metadatas (f : gmap ptr (pb.Metadata.t ptr) -> gmap ptr (pb.Metadata.t ptr))
    (h : Heap) : Heap :=
  mkHeap (claims h) (streams h) (f (metadatas h)) (sources h) (fees h) (signatures h).
Definition with_sources (f : gmap ptr pb.Source.t -> gmap ptr pb.Source.t)
    (h : Heap) : Heap :=
  mkHeap (claims h) (streams h) (metadatas h) (f (sources h)) (fees h) (signatures h).
Definition with_fees (f : gmap ptr pb.Fee.t -> gmap ptr pb.Fee.t) (h : Heap) : Heap :=
  mkHeap (claims h) (streams h) (metadatas h) (sources h) (f (fees h)) (signatures h).
Definition with_signatures (f : gmap ptr pb.Signature.t -> gmap ptr pb.Signature.t)
    (h : Heap) : Heap :=
  mkHeap (claims h) (streams h) (metadatas h) (sources h) (fees h) (f (signatures h)).

(** ** The monad of heap-manipulating code *)

Definition M (A : Type) : Type := Heap -> option (A * Heap).

Definition ret {A} (a : A) : M A := fun h => Some (a, h).

Definition bind {A B} (m : M A) (k : A -> M B) : M B :=
  fun h => match m h with
           | Some (a, h') => k a h'
           | None => None
           end.

Declare Scope go_scope.
Delimit Scope go_scope with go.
Notation "x <- c1 ;; c2" := (bind c1 (fun x => c2))
  (at level 100, c1 at next level, right associativity) : go_scope.
Notation "c1 ;; c2" := (bind c1 (fun _ => c2))
  (at level 100, right associativity) : go_scope.
Notation "m >>= f" := (bind m f) (at level 50, left associativity) : go_scope.
Local Open Scope go_scope.

(** One store of the heap, with how to read and to replace it. *)
Record Store (A : Type) := mkStore {
  cells : Heap -> gmap ptr A;
  with_cells : (gmap ptr A -> gmap ptr A) -> Heap -> Heap
}.
Arguments cells {A}.
Arguments with_cells {A}.

Definition claimS := mkStore _ claims with_claims.
Definition streamS := mkStore _ streams with_streams.
Definition metadataS := mkStore _ metadatas with_metadatas.
Definition sourceS := mkStore _ sources with_sources.
Definition feeS := mkStore _ fees with_fees.
Definition signatureS := mkStore _ signatures with_signatures.

(** [new(T)]: a fresh address holding the zero value of [T]. *)
Definition new {A} (S : Store A) (zero : A) : M (option ptr) :=
  fun h =>
    let l := fresh (dom (cells S h)) in
    Some (Some l, with_cells S (insert l zero) h).

(** [*p] *)
Definition load {A} (S : Store A) (p : option ptr) : M A :=
  fun h =>
    match p with
    | None => None
    | Some l => match cells S h !! l with
                | Some a => Some (a, h)
                | None => None
                end
    end.

(** [p.f = v], as the update [upd] of the object that [p] points to. *)
Definition assign {A} (S : Store A) (p : option ptr) (upd : A -> A) : M unit :=
  fun h =>
    match p with
    | None => None
    | Some l => match cells S h !! l with
                | Some a => Some (tt, with_cells S (insert l (upd a)) h)
                | None => None
                end
    end.

(** A generated getter [func (m *T) GetX() *X]: nil on a nil receiver,
    the field otherwise. *)
Definition getter {A X} (S : Store A) (field : A -> option X) (p : option ptr)
    : M (option X) :=
  match p with
  | None => ret None
  | Some _ => a <- load S p ;; ret (field a)
  end.

(** ** Encoding adapters

    Both decoders are imported ([encoding/hex] of the Go standard library
    and [base58] of btcutil); neither is defined in the sources. *)

Module hex.

(** The two errors of [encoding/hex]. *)
Inductive error := InvalidByteError (b : Z) | ErrLength.

Definition fromHexChar (c : Z) : option Z :=
  if (48 <=? c) && (c <=? 57) then Some (c - 48)
  else if (97 <=? c) && (c <=? 102) then Some (c - 97 + 10)
  else if (65 <=? c) && (c <=? 70) then Some (c - 65 + 10)
  else None.

(** Modelled from the spec: [hex.DecodeString], which the sources import
    from the Go standard library.  The spec has it decode a hexadecimal
    string to raw bytes and fail on any non-hex character or on odd
    length.  As in the library, the digits are taken two by two from the
    left, the first offending byte is reported before a bad length, and
    the bytes decoded before the error are returned with it. *)
Fixpoint Decode (src : bytes) : bytes * option error :=
  match src with
  | [] => ([], None)
  | [p] =>
      match fromHexChar p with
      | None => ([], Some (InvalidByteError p))
      | Some _ => ([], Some ErrLength)
      end
  | p :: q :: rest =>
      match fromHexChar p with
      | None => ([], Some (InvalidByteError p))
      | Some a =>
          match fromHexChar q with
          | None => ([], Some (InvalidByteError q))
          | Some b =>
              let '(dst, err) := Decode rest in
              (Z.lor (Z.shiftl a 4) b :: dst, err)
          end
      end
  end.

Definition DecodeString (s : string) : bytes * option error :=
  Decode (bytes_of_string s).

(** What a valid hexadecimal digest is, stated without the decoder: an
    even number of characters, each of them a hexadecimal digit. *)
Definition is_hex_digit (c : Z) : bool :=
  ((48 <=? c) && (c <=? 57)) || ((97 <=? c) && (c <=? 102))
  || ((65 <=? c) && (c <=? 70)).

Definition valid (s : string) : bool :=
  Nat.even (length (bytes_of_string s)) && forallb is_hex_digit (bytes_of_string s).

End hex.

Module base58.

Definition alphabet : string :=
  "123456789ABCDEFGHJKLMNPQRSTUVWXYZabcdefghijkmnopqrstuvwxyz".

Fixpoint index_from (i : Z) (c : ascii) (l : list ascii) : Z :=
  match l with
  | [] => 255
  | x :: l' => if Ascii.eqb c x then i else index_from (i + 1) c l'
  end.

(** The table [b58]: the value of a digit, 255 for any other byte. *)
Definition b58 (c : ascii) : Z := index_from 0 c (list_ascii_of_string alphabet).

(** The loop over the digits, from the last one to the first: the pair
    is [(answer, j)], and [None] stands for the early return on a byte
    that is no digit. *)
Fixpoint accumulate (b : list ascii) : option (Z * Z) :=
  match b with
  | [] => Some (0, 1)
  | c :: b' =>
      match accumulate b' with
      | None => None
      | Some (answer, j) =>
          let tmp := b58 c in
          if tmp =? 255 then None else Some (answer + j * tmp, j * 58)
      end
  end.

(** [big.Int.Bytes]: the big-endian bytes of a natural number, none for 0. *)
Definition big_Bytes (n : Z) : bytes :=
  if n =? 0 then []
  else map (fun i => Z.land (Z.shiftr n (8 * Z.of_nat i)) 255)
           (rev (seq 0 (Z.to_nat (Z.log2 n / 8 + 1)))).

Fixpoint numZeros (b : list ascii) : nat :=
  match b with
  | c :: b' => if Ascii.eqb c "1" then S (numZeros b') else O
  | [] => O
  end.

(** Modelled from the spec: [base58.Decode], which the sources import
    from btcutil.  The spec has it decode a base58 string to raw bytes
    over the standard base58 alphabet, and return a zero-length byte
    sequence on malformed input rather than fail.  The decoding is the
    library's: the digits are summed into a big integer, whose
    big-endian bytes follow one zero byte per leading ['1']. *)
Definition Decode (b : string) : bytes :=
  match accumulate (list_ascii_of_string b) with
  | None => []
  | Some (answer, _) =>
      (replicate (numZeros (list_ascii_of_string b)) 0 ++ big_Bytes answer)%list
  end.

(** A string is malformed when one of its bytes is no base58 digit. *)
Definition malformed (b : string) : Prop :=
  exists c, In c (list_ascii_of_string b) /\ b58 c = 255.

End base58.

(** ** The legacy JSON claims (package [claim])

    The struct declarations are not among the sources; the records have
    the fields that the migration reads, under their Go names and with
    the types the source uses them at ([Fee], [Thumbnail] and
    [LicenseURL] are pointers, a fee branch is a pointer to an amount and
    an address). *)

Module FeeInfo.
Record t := mk { Amount : float32; Address : string }.
End FeeInfo.

Module Fee.
Record t := mk {
  LBC : option FeeInfo.t;
  BTC : option FeeInfo.t;
  USD : option FeeInfo.t
}.
End Fee.

Module Sources.
Record t := mk { LbrySDHash : string }.
End Sources.

Module V1Claim.
Record t := mk {
  Title : string;
  Description : string;
  Author : string;
  Language : string;
  License : string;
  Sources : Sources.t;
  ContentType : string;
  Thumbnail : option string;
  Fee : option Fee.t
}.
End V1Claim.

Module V2Claim.
Record t := mk {
  Title : string;
  Description : string;
  Author : string;
  Language : string;
  License : string;
  Sources : Sources.t;
  ContentType : string;
  Thumbnail : option string;
  Fee : option Fee.t;
  LicenseURL : option string;
  NSFW : bool
}.
End V2Claim.

Module V3Claim.
Record t := mk {
  Title : string;
  Description : string;
  Author : string;
  Language : string;
  License : string;
  Sources : Sources.t;
  ContentType : string;
  Thumbnail : option string;
  Fee : option Fee.t;
  LicenseURL : option string;
  NSFW : bool
}.
End V3Claim.

(** ** The migration (the source file) *)

(** The generated getters of [pb] that the source calls. *)
Definition GetStream : option ptr -> M (option ptr) := getter claimS pb.Claim.Stream.
Definition GetMetadata : option ptr -> M (option ptr) := getter streamS pb.Stream.Metadata.
Definition GetSource : option ptr -> M (option ptr) := getter streamS pb.Stream.Source.
Definition GetFee : option ptr -> M (option ptr) := getter metadataS pb.Metadata.Fee.

(** [claim.GetStream()] on a local [claim pb.Claim]: the receiver is the
    address of the local copy, which is never nil. *)
Definition GetStream_of (claim : pb.Claim.t ptr ptr) : M (option ptr) :=
  ret (pb.Claim.Stream claim).

(** [m[k]] on a Go map of [int32]: the zero value for a missing key. *)
Definition index (m : gmap string Z) (k : string) : Z := default 0 (m !! k).

Definition lbrySDHash : string := "lbry_sd_hash".

Definition newClaim : M (option ptr) :=
  pbClaim <- new claimS pb.Claim.zero ;;
  stream <- new streamS pb.Stream.zero ;;
  metadata <- new metadataS pb.Metadata.zero ;;
  source <- new sourceS pb.Source.zero ;;
  pubSig <- new signatureS pb.Signature.zero ;;
  fee <- new feeS pb.Fee.zero ;;
  assign metadataS metadata (pb.Metadata.set_Fee fee) ;;
  assign streamS stream (pb.Stream.set_Metadata metadata) ;;
  assign streamS stream (pb.Stream.set_Source source) ;;
  assign claimS pbClaim (pb.Claim.set_Stream stream) ;;
  assign claimS pbClaim (pb.Claim.set_PublisherSignature pubSig) ;;
  (* Fee version *)
  let feeVersion := pb.Fee__0_0_1 in
  f <- GetStream pbClaim >>= GetMetadata >>= GetFee ;;
  assign feeS f (pb.Fee.set_Version (Some feeVersion)) ;;
  (* Metadata version *)
  let mdVersion := pb.Metadata__0_1_0 in
  m <- GetStream pbClaim >>= GetMetadata ;;
  assign metadataS m (pb.Metadata.set_Version (Some mdVersion)) ;;
  (* Source version *)
  let srcVersion := pb.Source__0_0_1 in
  s <- GetStream pbClaim >>= GetSource ;;
  assign sourceS s (pb.Source.set_Version (Some srcVersion)) ;;
  (* Stream version *)
  let streamVersion := pb.Stream__0_0_1 in
  st <- GetStream pbClaim ;;
  assign streamS st (pb.Stream.set_Version (Some streamVersion)) ;;
  (* Claim version *)
  let clmVersion := pb.Claim__0_0_1 in
  assign claimS pbClaim (pb.Claim.set_Version (Some clmVersion)) ;;
  (* Claim type *)
  let clmType := pb.Claim_streamType in
  assign claimS pbClaim (pb.Claim.set_ClaimType (Some clmType)) ;;
  ret pbClaim.

(** The claim is passed by value: [claim] is a copy of the struct, whose
    [Stream] field still points to the stream of the original. *)
Definition setMetaData (claim : pb.Claim.t ptr ptr) (author description : string)
    (language : pb.Metadata_Language) (license : string) (licenseURL : option string)
    (title : string) (thumbnail : option string) (nsfw : bool) : M unit :=
  m <- GetStream_of claim >>= GetMetadata ;;
  assign metadataS m (pb.Metadata.set_Author (Some author)) ;;
  m <- GetStream_of claim >>= GetMetadata ;;
  assign metadataS m (pb.Metadata.set_Description (Some description)) ;;
  m <- GetStream_of claim >>= GetMetadata ;;
  assign metadataS m (pb.Metadata.set_Language (Some language)) ;;
  m <- GetStream_of claim >>= GetMetadata ;;
  assign metadataS m (pb.Metadata.set_License (Some license)) ;;
  m <- GetStream_of claim >>= GetMetadata ;;
  assign metadataS m (pb.Metadata.set_Title (Some title)) ;;
  m <- GetStream_of claim >>= GetMetadata ;;
  assign metadataS m (pb.Metadata.set_Thumbnail thumbnail) ;;
  m <- GetStream_of claim >>= GetMetadata ;;
  assign metadataS m (pb.Metadata.set_Nsfw (Some nsfw)) ;;
  m <- GetStream_of claim >>= GetMetadata ;;
  assign metadataS m (pb.Metadata.set_LicenseUrl licenseURL).

Definition setFee (fee : option Fee.t) (pbClaim : option ptr) : M unit :=
  match fee with
  | Some fee =>
      let '(amount, currency, address) :=
        match Fee.BTC fee with
        | Some btc => (FeeInfo.Amount btc, pb.Fee_BTC, FeeInfo.Address btc)
        | None =>
            match Fee.LBC fee with
            | Some lbc => (FeeInfo.Amount lbc, pb.Fee_LBC, FeeInfo.Address lbc)
            | None =>
                match Fee.USD fee with
                | Some usd => (FeeInfo.Amount usd, pb.Fee_USD, FeeInfo.Address usd)
                | None => (float32_zero, pb.Fee_LBC, "")
                end
            end
        end in
      (* Fee Settings *)
      f <- GetStream pbClaim >>= GetMetadata >>= GetFee ;;
      assign feeS f (pb.Fee.set_Amount (Some amount)) ;;
      f <- GetStream pbClaim >>= GetMetadata >>= GetFee ;;
      assign feeS f (pb.Fee.set_Currency (Some currency)) ;;
      f <- GetStream pbClaim >>= GetMetadata >>= GetFee ;;
      assign feeS f (pb.Fee.set_Address (base58.Decode address))
  | None => ret tt
  end.

Section Migrators.

(** The two name tables of [pb] that the source indexes,
    [pb.Metadata_Language_value] and [pb.Source_SourceTypes_value]:
    they belong to the generated package, so the migration is stated
    for any contents of them. *)
Context (Metadata_Language_value Source_SourceTypes_value : gmap string Z).

Definition migrateV1Claim (vClaim : V1Claim.t) : M (option ptr * option hex.error) :=
  pbClaim <- newClaim ;;
  (* Not part of json V1 *)
  assign claimS pbClaim (pb.Claim.set_PublisherSignature None) ;;
  (* Stream *)
  setFee (V1Claim.Fee vClaim) pbClaim ;;
  (* MetaData *)
  let language : pb.Metadata_Language :=
    index Metadata_Language_value (V1Claim.Language vClaim) in
  claim <- load claimS pbClaim ;;
  setMetaData claim (V1Claim.Author vClaim) (V1Claim.Description vClaim) language
    (V1Claim.License vClaim) None (V1Claim.Title vClaim) (V1Claim.Thumbnail vClaim)
    false ;;
  (* Source *)
  s <- GetStream pbClaim >>= GetSource ;;
  assign sourceS s (pb.Source.set_ContentType (Some (V1Claim.ContentType vClaim))) ;;
  let sourceType : pb.Source_SourceTypes := index Source_SourceTypes_value lbrySDHash in
  s <- GetStream pbClaim >>= GetSource ;;
  assign sourceS s (pb.Source.set_SourceType (Some sourceType)) ;;
  let '(src, err) := hex.DecodeString (Sources.LbrySDHash (V1Claim.Sources vClaim)) in
  s <- GetStream pbClaim >>= GetSource ;;
  assign sourceS s (pb.Source.set_Source src) ;;
  ret (pbClaim, err).

Definition migrateV2Claim (vClaim : V2Claim.t) : M (option ptr * option hex.error) :=
  pbClaim <- newClaim ;;
  (* Not part of json V2 *)
  assign claimS pbClaim (pb.Claim.set_PublisherSignature None) ;;
  (* Stream *)
  setFee (V2Claim.Fee vClaim) pbClaim ;;
  (* MetaData *)
  let language : pb.Metadata_Language :=
    index Metadata_Language_value (V2Claim.Language vClaim) in
  claim <- load claimS pbClaim ;;
  setMetaData claim (V2Claim.Author vClaim) (V2Claim.Description vClaim) language
    (V2Claim.License vClaim) (V2Claim.LicenseURL vClaim) (V2Claim.Title vClaim)
    (V2Claim.Thumbnail vClaim) (V2Claim.NSFW vClaim) ;;
  (* Source *)
  s <- GetStream pbClaim >>= GetSource ;;
  assign sourceS s (pb.Source.set_ContentType (Some (V2Claim.ContentType vClaim))) ;;
  let sourceType : pb.Source_SourceTypes := index Source_SourceTypes_value lbrySDHash in
  s <- GetStream pbClaim >>= GetSource ;;
  assign sourceS s (pb.Source.set_SourceType (Some sourceType)) ;;
  let '(src, err) := hex.DecodeString (Sources.LbrySDHash (V2Claim.Sources vClaim)) in
  s <- GetStream pbClaim >>= GetSource ;;
  assign sourceS s (pb.Source.set_Source src) ;;
  ret (pbClaim, err).

Definition migrateV3Claim (vClaim : V3Claim.t) : M (option ptr * option hex.error) :=
  pbClaim <- newClaim ;;
  (* Not part of json V3 *)
  assign claimS pbClaim (pb.Claim.set_PublisherSignature None) ;;
  (* Stream *)
  setFee (V3Claim.Fee vClaim) pbClaim ;;
  (* MetaData *)
  let language : pb.Metadata_Language :=
    index Metadata_Language_value (V3Claim.Language vClaim) in
  claim <- load claimS pbClaim ;;
  setMetaData claim (V3Claim.Author vClaim) (V3Claim.Description vClaim) language
    (V3Claim.License vClaim) (V3Claim.LicenseURL vClaim) (V3Claim.Title vClaim)
    (V3Claim.Thumbnail vClaim) (V3Claim.NSFW vClaim) ;;
  (* Source *)
  s <- GetStream pbClaim >>= GetSource ;;
  assign sourceS s (pb.Source.set_ContentType (Some (V3Claim.ContentType vClaim))) ;;
  let sourceType : pb.Source_SourceTypes := index Source_SourceTypes_value lbrySDHash in
  s <- GetStream pbClaim >>= GetSource ;;
  assign sourceS s (pb.Source.set_SourceType (Some sourceType)) ;;
  let '(src, err) := hex.DecodeString (Sources.LbrySDHash (V3Claim.Sources vClaim)) in
  s <- GetStream pbClaim >>= GetSource ;;
  assign sourceS s (pb.Source.set_Source src) ;;
  ret (pbClaim, err).

End Migrators.

(** ** Reading a claim back from the heap

    What a caller sees when it follows the pointers of a returned claim:
    the messages nested in one another.  A nil pointer reads as [None];
    the reading itself fails only on a dangling address. *)

Definition FeeView := pb.Fee.t.
Definition SourceView := pb.Source.t.
Definition MetadataView := pb.Metadata.t FeeView.
Definition StreamView := pb.Stream.t MetadataView SourceView.
Definition ClaimView := pb.Claim.t StreamView pb.Signature.t.

Definition view_ptr {A B} (cells : gmap ptr A) (view : A -> option B) (p : option ptr)
    : option (option B) :=
  match p with
  | None => Some None
  | Some l =>
      match cells !! l with
      | Some a => match view a with Some b => Some (Some b) | None => None end
      | None => None
      end
  end.

Definition view_Metadata (h : Heap) (m : pb.Metadata.t ptr) : option MetadataView :=
  match view_ptr (fees h) Some (pb.Metadata.Fee m) with
  | Some fee =>
      Some (pb.Metadata.mk (pb.Metadata.Version m) (pb.Metadata.Language m)
              (pb.Metadata.Title m) (pb.Metadata.Description m) (pb.Metadata.Author m)
              (pb.Metadata.License m) (pb.Metadata.Nsfw m) fee
              (pb.Metadata.Thumbnail m) (pb.Metadata.LicenseUrl m))
  | None => None
  end.

Definition view_Stream (h : Heap) (s : pb.Stream.t ptr ptr) : option StreamView :=
  match view_ptr (metadatas h) (view_Metadata h) (pb.Stream.Metadata s),
        view_ptr (sources h) Some (pb.Stream.Source s) with
  | Some metadata, Some source => Some (pb.Stream.mk (pb.Stream.Version s) metadata source)
  | _, _ => None
  end.

Definition view_Claim_struct (h : Heap) (c : pb.Claim.t ptr ptr) : option ClaimView :=
  match view_ptr (streams h) (view_Stream h) (pb.Claim.Stream c),
        view_ptr (signatures h) Some (pb.Claim.PublisherSignature c) with
  | Some stream, Some pubSig =>
      Some (pb.Claim.mk (pb.Claim.Version c) (pb.Claim.ClaimType c) stream pubSig)
  | _, _ => None
  end.

Definition view_Claim (h : Heap) (p : option ptr) : option (option ClaimView) :=
  view_ptr (claims h) (view_Claim_struct h) p.

(** The outcome of a migrator started in heap [h], as its caller sees
    it: [None] if the call panics, and otherwise the claim behind the
    returned pointer ([None] for a nil pointer) with the returned error. *)
Definition outcome (m : M (option ptr * option hex.error)) (h : Heap)
    : option (option ClaimView * option hex.error) :=
  match m h with
  | Some ((p, err), h') =>
      match view_Claim h' p with
      | Some c => Some (c, err)
      | None => None
      end
  | None => None
  end.

(** The paths of a claim view that the properties speak of. *)
Definition stream_of (c : ClaimView) : option StreamView := pb.Claim.Stream c.
Definition metadata_of (c : ClaimView) : option MetadataView :=
  match stream_of c with Some s => pb.Stream.Metadata s | None => None end.
Definition source_of (c : ClaimView) : option SourceView :=
  match stream_of c with Some s => pb.Stream.Source s | None => None end.
Definition fee_of (c : ClaimView) : option FeeView :=
  match metadata_of c with Some m => pb.Metadata.Fee m | None => None end.

(** ** The three migrators at once

    The properties below hold of every legacy generation.  To state them
    once, a legacy record of any generation is a [LegacyClaim], and
    [migrator_of] runs the migrator of its generation.  Neither is part
    of the source: they only serve to quantify over the three functions
    [migrateV1Claim], [migrateV2Claim] and [migrateV3Claim]. *)

Inductive LegacyClaim :=
  | V1 (vClaim : V1Claim.t)
  | V2 (vClaim : V2Claim.t)
  | V3 (vClaim : V3Claim.t).

Section MigratorOf.
Context (Metadata_Language_value Source_SourceTypes_value : gmap string Z).

Definition migrator_of (r : LegacyClaim) : M (option ptr * option hex.error) :=
  match r with
  | V1 vClaim => migrateV1Claim Metadata_Language_value Source_SourceTypes_value vClaim
  | V2 vClaim => migrateV2Claim Metadata_Language_value Source_SourceTypes_value vClaim
  | V3 vClaim => migrateV3Claim Metadata_Language_value Source_SourceTypes_value vClaim
  end.
End MigratorOf.

(** The fields of a legacy record, whatever its generation. *)
Definition legacy_Fee (r : LegacyClaim) : option Fee.t :=
  match r with
  | V1 v => V1Claim.Fee v | V2 v => V2Claim.Fee v | V3 v => V3Claim.Fee v
  end.
Definition legacy_Language (r : LegacyClaim) : string :=
  match r with
  | V1 v => V1Claim.Language v | V2 v => V2Claim.Language v | V3 v => V3Claim.Language v
  end.
Definition legacy_LbrySDHash (r : LegacyClaim) : string :=
  match r with
  | V1 v => Sources.LbrySDHash (V1Claim.Sources v)
  | V2 v => Sources.LbrySDHash (V2Claim.Sources v)
  | V3 v => Sources.LbrySDHash (V3Claim.Sources v)
  end.
Definition legacy_Title (r : LegacyClaim) : string :=
  match r with
  | V1 v => V1Claim.Title v | V2 v => V2Claim.Title v | V3 v => V3Claim.Title v
  end.
Definition legacy_Description (r : LegacyClaim) : string :=
  match r with
  | V1 v => V1Claim.Description v | V2 v => V2Claim.Description v
  | V3 v => V3Claim.Description v
  end.
Definition legacy_Author (r : LegacyClaim) : string :=
  match r with
  | V1 v => V1Claim.Author v | V2 v => V2Claim.Author v | V3 v => V3Claim.Author v
  end.
Definition legacy_License (r : LegacyClaim) : string :=
  match r with
  | V1 v => V1Claim.License v | V2 v => V2Claim.License v | V3 v => V3Claim.License v
  end.
Definition legacy_ContentType (r : LegacyClaim) : string :=
  match r with
  | V1 v => V1Claim.ContentType v | V2 v => V2Claim.ContentType v
  | V3 v => V3Claim.ContentType v
  end.
Definition legacy_Thumbnail (r : LegacyClaim) : option string :=
  match r with
  | V1 v => V1Claim.Thumbnail v | V2 v => V2Claim.Thumbnail v | V3 v => V3Claim.Thumbnail v
  end.

(** ** The migration in closed form

    What the heap operations of a migrator add up to.  [fee_settings] is
    the if / else-if chain of [setFee] taken as a function of the fee
    descriptor: the amount, the currency and the address string that the
    chain selects.  [migrated] is the claim that [migrator_outcome] below
    shows every run to return; the properties are stated on the outcome
    of the code, and proved through it. *)

Definition fee_settings (fee : Fee.t) : float32 * pb.Fee_Currency * string :=
  match Fee.BTC fee with
  | Some btc => (FeeInfo.Amount btc, pb.Fee_BTC, FeeInfo.Address btc)
  | None =>
      match Fee.LBC fee with
      | Some lbc => (FeeInfo.Amount lbc, pb.Fee_LBC, FeeInfo.Address lbc)
      | None =>
          match Fee.USD fee with
          | Some usd => (FeeInfo.Amount usd, pb.Fee_USD, FeeInfo.Address usd)
          | None => (float32_zero, pb.Fee_LBC, "")
          end
      end
  end.

Definition migrated_Fee (fee : option Fee.t) : FeeView :=
  match fee with
  | Some fee =>
      let '(amount, currency, address) := fee_settings fee in
      pb.Fee.mk (Some pb.Fee__0_0_1) (Some currency) (base58.Decode address) (Some amount)
  | None => pb.Fee.mk (Some pb.Fee__0_0_1) None [] None
  end.

Definition migrated_Nsfw (r : LegacyClaim) : bool :=
  match r with V1 _ => false | V2 v => V2Claim.NSFW v | V3 v => V3Claim.NSFW v end.

Definition migrated_LicenseUrl (r : LegacyClaim) : option string :=
  match r with V1 _ => None | V2 v => V2Claim.LicenseURL v | V3 v => V3Claim.LicenseURL v end.

Section Migrated.
Context (Metadata_Language_value Source_SourceTypes_value : gmap string Z).

Definition migrated_Metadata (r : LegacyClaim) : MetadataView :=
  pb.Metadata.mk (Some pb.Metadata__0_1_0)
    (Some (index Metadata_Language_value (legacy_Language r)))
    (Some (legacy_Title r)) (Some (legacy_Description r)) (Some (legacy_Author r))
    (Some (legacy_License r)) (Some (migrated_Nsfw r))
    (Some (migrated_Fee (legacy_Fee r)))
    (legacy_Thumbnail r) (migrated_LicenseUrl r).

Definition migrated_Source (r : LegacyClaim) : SourceView :=
  pb.Source.mk (Some pb.Source__0_0_1)
    (Some (index Source_SourceTypes_value lbrySDHash))
    (fst (hex.DecodeString (legacy_LbrySDHash r)))
    (Some (legacy_ContentType r)).

Definition migrated (r : LegacyClaim) : ClaimView :=
  pb.Claim.mk (Some pb.Claim__0_0_1) (Some pb.Claim_streamType)
    (Some (pb.Stream.mk (Some pb.Stream__0_0_1)
             (Some (migrated_Metadata r)) (Some (migrated_Source r))))
    None.
End Migrated.

(** ** Corresponding V2 and V3 records *)

(** A V2 record and a V3 record with the same contents, field by field. *)
Definition same_fields (v2 : V2Claim.t) (v3 : V3Claim.t) : Prop :=
  V2Claim.Author v2 = V3Claim.Author v3
  /\ V2Claim.Description v2 = V3Claim.Description v3
  /\ V2Claim.Language v2 = V3Claim.Language v3
  /\ V2Claim.License v2 = V3Claim.License v3
  /\ V2Claim.LicenseURL v2 = V3Claim.LicenseURL v3
  /\ V2Claim.Title v2 = V3Claim.Title v3
  /\ V2Claim.Thumbnail v2 = V3Claim.Thumbnail v3
  /\ V2Claim.NSFW v2 = V3Claim.NSFW v3
  /\ V2Claim.ContentType v2 = V3Claim.ContentType v3
  /\ Sources.LbrySDHash (V2Claim.Sources v2) = Sources.LbrySDHash (V3Claim.Sources v3)
  /\ V2Claim.Fee v2 = V3Claim.Fee v3.

(** ** Sample inputs *)

(** Two small name tables, for the examples only. *)
Definition sample_languages : gmap string Z := <["en" := 1]> (<["fr" := 2]> ∅).
Definition sample_source_types : gmap string Z := <["lbry_sd_hash" := 1]> ∅.

(** A V1 record without a fee and with the digest [deadbeef]. *)
Definition sample_no_fee : V1Claim.t :=
  V1Claim.mk "title" "description" "author" "en" "license" (Sources.mk "deadbeef")
    "video/mp4" (Some "thumbnail") None.

(** A V1 record whose digest stops being hexadecimal after one byte. *)
Definition sample_bad_digest : V1Claim.t :=
  V1Claim.mk "title" "description" "author" "en" "license" (Sources.mk "abzz")
    "video/mp4" None None.

(** A fee with both the BTC and the USD branch populated. *)
Definition sample_fee_btc_usd : Fee.t :=
  Fee.mk None (Some (FeeInfo.mk 1065353216 "StV1DL6CwTryKyV"))
    (Some (FeeInfo.mk 1073741824 "2NEpo7TZRRrLZSi2U")).

Definition sample_btc_usd : V3Claim.t :=
  V3Claim.mk "title" "description" "author" "fr" "license" (Sources.mk "deadbeef")
    "video/mp4" None (Some sample_fee_btc_usd) (Some "https://example.org/license") true.

(** A fee descriptor that is present with no branch populated. *)
Definition sample_fee_empty : Fee.t := Fee.mk None None None.

Definition sample_empty_fee : V2Claim.t :=
  V2Claim.mk "title" "description" "author" "en" "license" (Sources.mk "deadbeef")
    "video/mp4" None (Some sample_fee_empty) None false.

(** A fee whose address has bytes that are no base58 digits ([0], [l]). *)
Definition sample_fee_bad_address : Fee.t :=
  Fee.mk (Some (FeeInfo.mk 1065353216 "0bad-address-l")) None None.

Definition sample_bad_address : V2Claim.t :=
  V2Claim.mk "title" "description" "author" "en" "license" (Sources.mk "deadbeef")
    "video/mp4" None (Some sample_fee_bad_address) None false.

(** A V2 record and the V3 record with the same fields. *)
Definition sample_V2 : V2Claim.t :=
  V2Claim.mk "title" "description" "author" "xx" "license" (Sources.mk "dead")
    "video/mp4" (Some "thumbnail") (Some sample_fee_btc_usd) (Some "url") true.

Definition sample_V3 : V3Claim.t :=
  V3Claim.mk "title" "description" "author" "xx" "license" (Sources.mk "dead")
    "video/mp4" (Some "thumbnail") (Some sample_fee_btc_usd) (Some "url") true.

(** ** Heaps that only grow *)

(** Every object of [h] is still in [h'], at the same address and with
    the same contents. *)
Definition heap_included (h h' : Heap) : Prop :=
  claims h ⊆ claims h'
  /\ streams h ⊆ streams h'
  /\ metadatas h ⊆ metadatas h'
  /\ sources h ⊆ sources h'
  /\ fees h ⊆ fees h'
  /\ signatures h ⊆ signatures h'.

(** The claim that [newClaim] builds, read back: every sub-message is
    allocated and holds its version tag and nothing else. *)
Definition skeleton : ClaimView :=
  pb.Claim.mk (Some pb.Claim__0_0_1) (Some pb.Claim_streamType)
    (Some
       (pb.Stream.mk (Some pb.Stream__0_0_1)
          (Some
             (pb.Metadata.mk (Some pb.Metadata__0_1_0) None None None None None None
                (Some (pb.Fee.mk (Some pb.Fee__0_0_1) None [] None)) None None))
          (Some (pb.Source.mk (Some pb.Source__0_0_1) None [] None))))
    (Some pb.Signature.mk).

(** A heap with one claim whose stream, metadata and fee are allocated
    and empty, for the examples. *)
Definition sample_claim_struct : pb.Claim.t ptr ptr :=
  pb.Claim.mk None None (Some 2%positive) None.

Definition sample_heap : Heap :=
  mkHeap {[ 1%positive := sample_claim_struct ]}
    {[ 2%positive := pb.Stream.mk None (Some 3%positive) None ]}
    {[ 3%positive := pb.Metadata.set_Fee (Some 4%positive) pb.Metadata.zero ]}
    ∅
    {[ 4%positive := pb.Fee.zero ]}
    ∅.

(** ** The command [ytsync] (package [cmd])

    [ytSync] reads the environment, checks the flags and starts the sync
    manager.  Its collaborators are outside the file: the operating
    system (environment, host name, current user), the logger, Slack and
    the sync manager of package [sync].  What they answer is a [World];
    what [ytSync] asks of them, in order, is a list of [Event]s. *)
Module cmd.

Definition defaultMaxTries : Z := 3.

(** The package-level variables that the flags are bound to. *)
Record Vars := mkVars {
  stopOnError : bool;
  maxTries : Z;
  takeOverExistingChannel : bool;
  refill : Z;
  limit : Z;
  skipSpaceCheck : bool;
  syncUpdate : bool;
  singleRun : bool;
  syncStatus : string;
  channelID : string;
  syncFrom : Z;
  syncUntil : Z;
  concurrentJobs : Z;
  videosLimit : Z;
  maxVideoSize : Z
}.

(** [sdk.SyncProperties] and [sdk.APIConfig], with the fields that the
    source sets. *)
Record SyncProperties := mkSyncProperties {
  SyncFrom : Z;
  SyncUntil : Z;
  YoutubeChannelID : string
}.

Record APIConfig := mkAPIConfig {
  YoutubeAPIKey : string;
  ApiURL : string;
  ApiToken : string;
  HostName : string
}.

(** The sync manager, as the arguments of [sync.NewSyncManager] in the
    order of the call. *)
Record SyncManager := NewSyncManager {
  sm_stopOnError : bool;
  sm_maxTries : Z;
  sm_takeOverExistingChannel : bool;
  sm_refill : Z;
  sm_limit : Z;
  sm_skipSpaceCheck : bool;
  sm_syncUpdate : bool;
  sm_concurrentJobs : Z;
  sm_concurrentJobs' : Z;
  sm_blobsDir : string;
  sm_videosLimit : Z;
  sm_maxVideoSize : Z;
  sm_lbrycrdString : string;
  sm_awsS3ID : string;
  sm_awsS3Secret : string;
  sm_awsS3Region : string;
  sm_awsS3Bucket : string;
  sm_syncStatus : string;
  sm_singleRun : bool;
  sm_syncProperties : SyncProperties;
  sm_apiConfig : APIConfig
}.

(** The answers of the collaborators.  [Getenv] gives the empty string
    for a variable that is not set; [Hostname] and [user_Current] give a
    value and an error ([None] for nil; of the user only the home
    directory is read); [Start] gives the error of [sm.Start()]. *)
Record World := mkWorld {
  Getenv : string -> string;
  Hostname : string * option string;
  user_Current : string * option string;
  SyncStatuses : list string;
  InSlice : string -> list string -> bool;
  Start : SyncManager -> option string
}.

Inductive Event :=
  | log_Error (msg : string)
  | log_Errorf (format : string) (arg : list string)
  | log_Errorln (msg : string)
  | log_Infoln (msg : string)
  | util_InitSlack (token channel hostname : string)
  | sm_Start (sm : SyncManager)
  | sync_SendErrorToSlack (msg : string)
  | sync_SendInfoToSlack (msg : string).

(** The values that [init] binds to the flags; [refill] is bound to no
    flag and keeps its zero value.  [now] is [time.Now().Unix()]. *)
Definition init (now : Z) : Vars :=
  mkVars false defaultMaxTries false 0 0 false false false "" "" 0 now 1 1000 2048.

Definition newline : string := String "010"%char "".

Definition ytSync (w : World) (v : Vars) : list Event :=
  let slackToken := Getenv w "SLACK_TOKEN" in
  let '(hostname, slack) :=
    if String.eqb slackToken "" then
      ("", [log_Error "A slack token was not present in env vars! Slack messages disabled!"])
    else
      let '(hostname, err) := Hostname w in
      let '(hostname, logged) :=
        match err with
        | Some _ => ("ytsync-unknown", [log_Error "could not detect system hostname"])
        | None => (hostname, [])
        end in
      (hostname,
       (logged
        ++ [util_InitSlack (Getenv w "SLACK_TOKEN") (Getenv w "SLACK_CHANNEL") hostname])%list)
  in
  app slack
  (if negb (String.eqb (syncStatus v) "") && negb (InSlice w (syncStatus v) (SyncStatuses w))
  then [log_Errorf ("status must be one of the following: %v" ++ newline)%string (SyncStatuses w)]
  else if stopOnError v && negb (maxTries v =? defaultMaxTries)
  then [log_Errorln "--stop-on-error and --max-tries are mutually exclusive"]
  else if maxTries v <? 1
  then [log_Errorln "setting --max-tries less than 1 doesn't make sense"]
  else if limit v <? 0
  then [log_Errorln "setting --limit less than 0 (unlimited) doesn't make sense"]
  else
    let apiURL := Getenv w "LBRY_API" in
    let apiToken := Getenv w "LBRY_API_TOKEN" in
    let youtubeAPIKey := Getenv w "YOUTUBE_API_KEY" in
    let blobsDir := Getenv w "BLOBS_DIRECTORY" in
    let lbrycrdString := Getenv w "LBRYCRD_STRING" in
    let awsS3ID := Getenv w "AWS_S3_ID" in
    let awsS3Secret := Getenv w "AWS_S3_SECRET" in
    let awsS3Region := Getenv w "AWS_S3_REGION" in
    let awsS3Bucket := Getenv w "AWS_S3_BUCKET" in
    if String.eqb apiURL ""
    then [log_Errorln "An API URL was not defined. Please set the environment variable LBRY_API"]
    else if String.eqb apiToken ""
    then [log_Errorln "An API Token was not defined. Please set the environment variable LBRY_API_TOKEN"]
    else if String.eqb youtubeAPIKey ""
    then [log_Errorln "A Youtube API key was not defined. Please set the environment variable YOUTUBE_API_KEY"]
    else if String.eqb awsS3ID ""
    then [log_Errorln "AWS S3 ID credentials were not defined. Please set the environment variable AWS_S3_ID"]
    else if String.eqb awsS3Secret ""
    then [log_Errorln "AWS S3 Secret credentials were not defined. Please set the environment variable AWS_S3_SECRET"]
    else if String.eqb awsS3Region ""
    then [log_Errorln "AWS S3 Region was not defined. Please set the environment variable AWS_S3_REGION"]
    else if String.eqb awsS3Bucket ""
    then [log_Errorln "AWS S3 Bucket was not defined. Please set the environment variable AWS_S3_BUCKET"]
    else
      let info :=
        if String.eqb lbrycrdString ""
        then [log_Infoln "Using default (local) lbrycrd instance. Set LBRYCRD_STRING if you want to use something else"]
        else [] in
      app info
      (let blobsDir_or_error : string + string :=
        if String.eqb blobsDir "" then
          let '(HomeDir, err) := user_Current w in
          match err with
          | Some e => inr e
          | None => inl (HomeDir ++ "/.lbrynet/blobfiles/")%string
          end
        else inl blobsDir in
      match blobsDir_or_error with
      | inr e => [log_Errorln e]
      | inl blobsDir =>
          let syncProperties := mkSyncProperties (syncFrom v) (syncUntil v) (channelID v) in
          let apiConfig := mkAPIConfig youtubeAPIKey apiURL apiToken hostname in
          let sm :=
            NewSyncManager (stopOnError v) (maxTries v) (takeOverExistingChannel v)
              (refill v) (limit v) (skipSpaceCheck v) (syncUpdate v)
              (concurrentJobs v) (concurrentJobs v) blobsDir (videosLimit v)
              (maxVideoSize v) lbrycrdString awsS3ID awsS3Secret awsS3Region awsS3Bucket
              (syncStatus v) (singleRun v) syncProperties apiConfig in
          let err := Start w sm in
          ([sm_Start sm]
           ++ match err with
              | Some e => [sync_SendErrorToSlack e]
              | None => []
              end
           ++ [sync_SendInfoToSlack "Syncing process terminated!"])%list
      end)).

(** The kinds of events that the properties tell apart. *)
Definition is_rejection (e : Event) : bool :=
  match e with log_Errorf _ _ | log_Errorln _ => true | _ => false end.

Definition is_start (e : Event) : bool :=
  match e with sm_Start _ => true | _ => false end.

Definition is_slack_message (e : Event) : bool :=
  match e with sync_SendErrorToSlack _ | sync_SendInfoToSlack _ => true | _ => false end.

Definition is_InitSlack (e : Event) : bool :=
  match e with util_InitSlack _ _ _ => true | _ => false end.

(** The checks of [ytSync] in the order of the source, each with the
    test that makes it fail and the line that is then logged.  The last
    one, on the current user, is only made when no blobs directory is
    given; its line is the text of the error. *)
Definition checks (w : World) (v : Vars) : list (bool * Event) :=
  [ (negb (String.eqb (syncStatus v) "")
     && negb (InSlice w (syncStatus v) (SyncStatuses w)),
     log_Errorf ("status must be one of the following: %v" ++ newline)%string
       (SyncStatuses w));
    (stopOnError v && negb (maxTries v =? defaultMaxTries),
     log_Errorln "--stop-on-error and --max-tries are mutually exclusive");
    (maxTries v <? 1,
     log_Errorln "setting --max-tries less than 1 doesn't make sense");
    (limit v <? 0,
     log_Errorln "setting --limit less than 0 (unlimited) doesn't make sense");
    (String.eqb (Getenv w "LBRY_API") "",
     log_Errorln "An API URL was not defined. Please set the environment variable LBRY_API");
    (String.eqb (Getenv w "LBRY_API_TOKEN") "",
     log_Errorln "An API Token was not defined. Please set the environment variable LBRY_API_TOKEN");
    (String.eqb (Getenv w "YOUTUBE_API_KEY") "",
     log_Errorln "A Youtube API key was not defined. Please set the environment variable YOUTUBE_API_KEY");
    (String.eqb (Getenv w "AWS_S3_ID") "",
     log_Errorln "AWS S3 ID credentials were not defined. Please set the environment variable AWS_S3_ID");
    (String.eqb (Getenv w "AWS_S3_SECRET") "",
     log_Errorln "AWS S3 Secret credentials were not defined. Please set the environment variable AWS_S3_SECRET");
    (String.eqb (Getenv w "AWS_S3_REGION") "",
     log_Errorln "AWS S3 Region was not defined. Please set the environment variable AWS_S3_REGION");
    (String.eqb (Getenv w "AWS_S3_BUCKET") "",
     log_Errorln "AWS S3 Bucket was not defined. Please set the environment variable AWS_S3_BUCKET");
    (String.eqb (Getenv w "BLOBS_DIRECTORY") ""
     && match snd (user_Current w) with Some _ => true | None => false end,
     log_Errorln match snd (user_Current w) with Some e => e | None => EmptyString end)
  ].

(** The line of the first check that fails, if any. *)
Definition first_rejection (w : World) (v : Vars) : option Event :=
  option_map snd (find fst (checks w v)).

(** The environment variables without which the manager is not started. *)
Definition required_env_set (w : World) : Prop :=
  Getenv w "LBRY_API" <> "" /\ Getenv w "LBRY_API_TOKEN" <> ""
  /\ Getenv w "YOUTUBE_API_KEY" <> "" /\ Getenv w "AWS_S3_ID" <> ""
  /\ Getenv w "AWS_S3_SECRET" <> "" /\ Getenv w "AWS_S3_REGION" <> ""
  /\ Getenv w "AWS_S3_BUCKET" <> "".

End cmd.

(** A world for the examples: every variable is set to its own name but
    the Slack token, the blobs directory and the lbrycrd string, which
    are not set; the host name and the current user are known; the
    manager fails to start. *)
Definition sample_world : cmd.World :=
  cmd.mkWorld
    (fun k =>
       if String.eqb k "SLACK_TOKEN" || String.eqb k "BLOBS_DIRECTORY"
          || String.eqb k "LBRYCRD_STRING"
       then "" else k)
    ("host", None) ("/home/ytsync", None) ["queued"; "syncing"; "synced"; "failed"]
    (fun s l => existsb (String.eqb s) l)
    (fun _ => Some "start failed").

(** The manager that [ytSync] builds in the sample world from the
    default flags at time 0. *)
Definition sample_manager : cmd.SyncManager :=
  cmd.NewSyncManager false 3 false 0 0 false false 1 1
    "/home/ytsync/.lbrynet/blobfiles/" 1000 2048 "" "AWS_S3_ID" "AWS_S3_SECRET"
    "AWS_S3_REGION" "AWS_S3_BUCKET" "" false (cmd.mkSyncProperties 0 0 "")
    (cmd.mkAPIConfig "YOUTUBE_API_KEY" "LBRY_API" "LBRY_API_TOKEN" "").

(** ** Running heap code: the rules of the monad *)

Lemma run_bind {A B} (m : M A) (k : A -> M B) h a h' r :
  m h = Some (a, h') -> k a h' = r -> bind m k h = r.
Proof. intros Hm Hk. unfold bind. rewrite Hm. exact Hk. Qed.

Lemma run_load {A} (S : Store A) l a h :
  cells S h !! l = Some a -> load S (Some l) h = Some (a, h).
Proof. intros H. unfold load. rewrite H. reflexivity. Qed.

Lemma run_assign {A} (S : Store A) l upd a h :
  cells S h !! l = Some a ->
  assign S (Some l) upd h = Some (tt, with_cells S (insert l (upd a)) h).
Proof. intros H. unfold assign. rewrite H. reflexivity. Qed.

Lemma run_getter {A X} (S : Store A) (field : A -> option X) l a h :
  cells S h !! l = Some a -> getter S field (Some l) h = Some (field a, h).
Proof.
  intros H. unfold getter.
  eapply run_bind; [ apply run_load, H | reflexivity ].
Qed.

(** Reduction of the heap projections and of the record updates. *)
Ltac red_heap :=
  cbn [cells with_cells claimS streamS metadataS sourceS feeS signatureS
       claims streams metadatas sources fees signatures
       with_claims with_streams with_metadatas with_sources with_fees with_signatures].

Ltac red_pb :=
  cbn [pb.Claim.Version pb.Claim.ClaimType pb.Claim.Stream pb.Claim.PublisherSignature
       pb.Claim.set_Version pb.Claim.set_ClaimType pb.Claim.set_Stream
       pb.Claim.set_PublisherSignature pb.Claim.zero
       pb.Stream.Version pb.Stream.Metadata pb.Stream.Source
       pb.Stream.set_Version pb.Stream.set_Metadata pb.Stream.set_Source pb.Stream.zero
       pb.Metadata.Version pb.Metadata.Language pb.Metadata.Title pb.Metadata.Description
       pb.Metadata.Author pb.Metadata.License pb.Metadata.Nsfw pb.Metadata.Fee
       pb.Metadata.Thumbnail pb.Metadata.LicenseUrl
       pb.Metadata.set_Version pb.Metadata.set_Language pb.Metadata.set_Title
       pb.Metadata.set_Description pb.Metadata.set_Author pb.Metadata.set_License
       pb.Metadata.set_Nsfw pb.Metadata.set_Fee pb.Metadata.set_Thumbnail
       pb.Metadata.set_LicenseUrl pb.Metadata.zero
       pb.Source.Version pb.Source.SourceType pb.Source.Source pb.Source.ContentType
       pb.Source.set_Version pb.Source.set_SourceType pb.Source.set_Source
       pb.Source.set_ContentType pb.Source.zero
       pb.Fee.Version pb.Fee.Currency pb.Fee.Address pb.Fee.Amount
       pb.Fee.set_Version pb.Fee.set_Currency pb.Fee.set_Address pb.Fee.set_Amount
       pb.Fee.zero].

(** The object at the address that was written last. *)
Ltac cell := red_heap; apply lookup_insert_eq.

(** Symbolic execution of a goal [m h = r], one operation after another;
    the heap is kept as its six stores, each with its latest write. *)
Ltac run :=
  lazymatch goal with
  | |- bind _ _ _ = _ =>
      eapply run_bind;
      [ run | cbv beta; red_heap; red_pb; rewrite ?insert_insert_eq; run ]
  | |- ret _ _ = _ => reflexivity
  | |- new _ _ _ = _ => reflexivity
  | |- load _ (Some _) _ = _ => apply run_load; cell
  | |- assign _ (Some _) _ _ = _ => apply run_assign; cell
  | |- getter _ _ (Some _) _ = _ => apply run_getter; cell
  | |- GetStream _ _ = _ => unfold GetStream; run
  | |- GetMetadata _ _ = _ => unfold GetMetadata; run
  | |- GetSource _ _ = _ => unfold GetSource; run
  | |- GetFee _ _ = _ => unfold GetFee; run
  | |- GetStream_of _ _ = _ => unfold GetStream_of; run
  | |- _ => idtac
  end.

(** Reading back the claim of a heap whose stores are known. *)
Ltac read_back :=
  unfold view_Claim, view_Claim_struct, view_Stream, view_Metadata, view_ptr;
  red_heap; red_pb;
  repeat (rewrite lookup_insert_eq; red_heap; red_pb).

(** Reduction of the projections of the legacy records. *)
Ltac red_legacy :=
  cbn [legacy_Fee legacy_Language legacy_LbrySDHash legacy_Title legacy_Description
       legacy_Author legacy_License legacy_ContentType legacy_Thumbnail
       migrated_Nsfw migrated_LicenseUrl
       Sources.LbrySDHash
       V1Claim.Title V1Claim.Description V1Claim.Author V1Claim.Language V1Claim.License
       V1Claim.Sources V1Claim.ContentType V1Claim.Thumbnail V1Claim.Fee
       V2Claim.Title V2Claim.Description V2Claim.Author V2Claim.Language V2Claim.License
       V2Claim.Sources V2Claim.ContentType V2Claim.Thumbnail V2Claim.Fee
       V2Claim.LicenseURL V2Claim.NSFW
       V3Claim.Title V3Claim.Description V3Claim.Author V3Claim.Language V3Claim.License
       V3Claim.Sources V3Claim.ContentType V3Claim.Thumbnail V3Claim.Fee
       V3Claim.LicenseURL V3Claim.NSFW].

(** A migrator, once the digest has been decoded and the fee settings
    have been chosen: the run of the heap operations, then the reading
    back of the claim. *)
Ltac run_migrator :=
  eexists _, _; split;
  [ unfold newClaim, setMetaData; cbv zeta; run
  | read_back; unfold migrated, migrated_Metadata, migrated_Source, migrated_Fee;
    red_legacy;
    repeat match goal with H : _ = _ |- _ => rewrite H end;
    reflexivity ].

Section Outcome.
Context (Metadata_Language_value Source_SourceTypes_value : gmap string Z).

Local Abbreviation migrateV1 :=
  (migrateV1Claim Metadata_Language_value Source_SourceTypes_value).
Local Abbreviation migrateV2 :=
  (migrateV2Claim Metadata_Language_value Source_SourceTypes_value).
Local Abbreviation migrateV3 :=
  (migrateV3Claim Metadata_Language_value Source_SourceTypes_value).
Local Abbreviation view := (migrated Metadata_Language_value Source_SourceTypes_value).

Lemma migrateV1Claim_run vClaim h :
  exists p h',
    migrateV1 vClaim h
    = Some ((Some p, snd (hex.DecodeString (legacy_LbrySDHash (V1 vClaim)))), h')
    /\ view_Claim h' (Some p) = Some (Some (view (V1 vClaim))).
Proof.
  destruct h as [c s m so f sg].
  destruct vClaim as [title descr author lang lic [digest] ctype thumb fee].
  unfold migrateV1Claim, setFee. red_legacy.
  destruct (hex.DecodeString digest) as [src err] eqn:Hhex.
  destruct fee as [fee|].
  - fold (fee_settings fee).
    destruct (fee_settings fee) as [[amount currency] address] eqn:Hfee.
    run_migrator.
  - run_migrator.
Qed.

Lemma migrateV2Claim_run vClaim h :
  exists p h',
    migrateV2 vClaim h
    = Some ((Some p, snd (hex.DecodeString (legacy_LbrySDHash (V2 vClaim)))), h')
    /\ view_Claim h' (Some p) = Some (Some (view (V2 vClaim))).
Proof.
  destruct h as [c s m so f sg].
  destruct vClaim as [title descr author lang lic [digest] ctype thumb fee url nsfw].
  unfold migrateV2Claim, setFee. red_legacy.
  destruct (hex.DecodeString digest) as [src err] eqn:Hhex.
  destruct fee as [fee|].
  - fold (fee_settings fee).
    destruct (fee_settings fee) as [[amount currency] address] eqn:Hfee.
    run_migrator.
  - run_migrator.
Qed.

Lemma migrateV3Claim_run vClaim h :
  exists p h',
    migrateV3 vClaim h
    = Some ((Some p, snd (hex.DecodeString (legacy_LbrySDHash (V3 vClaim)))), h')
    /\ view_Claim h' (Some p) = Some (Some (view (V3 vClaim))).
Proof.
  destruct h as [c s m so f sg].
  destruct vClaim as [title descr author lang lic [digest] ctype thumb fee url nsfw].
  unfold migrateV3Claim, setFee. red_legacy.
  destruct (hex.DecodeString digest) as [src err] eqn:Hhex.
  destruct fee as [fee|].
  - fold (fee_settings fee).
    destruct (fee_settings fee) as [[amount currency] address] eqn:Hfee.
    run_migrator.
  - run_migrator.
Qed.

(** Every run of a migrator, from any heap, returns without panic a
    non-nil pointer to the claim [migrated r], together with the error
    of the digest decoder. *)
Lemma migrator_outcome r h :
  outcome (migrator_of Metadata_Language_value Source_SourceTypes_value r) h
  = Some (Some (view r), snd (hex.DecodeString (legacy_LbrySDHash r))).
Proof.
  unfold outcome.
  destruct r as [v|v|v]; cbn [migrator_of];
    [ destruct (migrateV1Claim_run v h) as (p & h' & Hrun & Hview)
    | destruct (migrateV2Claim_run v h) as (p & h' & Hrun & Hview)
    | destruct (migrateV3Claim_run v h) as (p & h' & Hrun & Hview) ];
    rewrite Hrun, Hview; reflexivity.
Qed.

End Outcome.

(** ** The decoders *)

(** Induction on a list, two elements at a time. *)
Lemma list_pairs_ind {A} (P : list A -> Prop) :
  P [] -> (forall a, P [a]) -> (forall a b l, P l -> P (a :: b :: l)) ->
  forall l, P l.
Proof.
  intros Hnil Hone Hstep l.
  assert (H : P l /\ forall a, P (a :: l)).
  { induction l as [|b l [IHl IHcons]]; split; auto. }
  apply H.
Qed.

Lemma fromHexChar_is_hex_digit c :
  hex.is_hex_digit c = true <-> exists v, hex.fromHexChar c = Some v.
Proof.
  unfold hex.is_hex_digit, hex.fromHexChar.
  destruct ((48 <=? c) && (c <=? 57)); [ cbn; split; eauto |].
  destruct ((97 <=? c) && (c <=? 102)); [ cbn; split; eauto |].
  destruct ((65 <=? c) && (c <=? 70)); [ cbn; split; eauto |].
  cbn. split; [ discriminate | intros [v Hv]; discriminate ].
Qed.

(** The decoder reports no error exactly on the strings of an even
    number of hexadecimal digits. *)
Lemma hex_Decode_no_error src :
  snd (hex.Decode src) = None
  <-> Nat.even (length src) && forallb hex.is_hex_digit src = true.
Proof.
  induction src as [|p|p q rest IH] using list_pairs_ind.
  - cbn. tauto.
  - cbn. destruct (hex.fromHexChar p); cbn; split; discriminate.
  - cbn [hex.Decode length forallb Nat.even].
    destruct (hex.is_hex_digit p) eqn:Hp.
    + apply fromHexChar_is_hex_digit in Hp as [a ->].
      destruct (hex.is_hex_digit q) eqn:Hq.
      * apply fromHexChar_is_hex_digit in Hq as [b ->].
        destruct (hex.Decode rest) as [dst err]. cbn [snd andb] in *. exact IH.
      * assert (hex.fromHexChar q = None) as ->.
        { destruct (hex.fromHexChar q) eqn:E; [|reflexivity].
          assert (hex.is_hex_digit q = true) by (apply fromHexChar_is_hex_digit; eauto).
          congruence. }
        cbn. rewrite andb_false_r. split; discriminate.
    + assert (hex.fromHexChar p = None) as ->.
      { destruct (hex.fromHexChar p) eqn:E; [|reflexivity].
        assert (hex.is_hex_digit p = true) by (apply fromHexChar_is_hex_digit; eauto).
        congruence. }
      cbn. rewrite andb_false_r. split; discriminate.
Qed.

Lemma hex_DecodeString_valid s :
  snd (hex.DecodeString s) = None <-> hex.valid s = true.
Proof. apply hex_Decode_no_error. Qed.

Lemma hex_DecodeString_invalid s :
  hex.valid s = false -> exists e, snd (hex.DecodeString s) = Some e.
Proof.
  intros Hs. destruct (snd (hex.DecodeString s)) as [e|] eqn:E; [ eauto |].
  apply hex_DecodeString_valid in E. congruence.
Qed.

(** A byte that is no base58 digit anywhere in the string stops the sum. *)
Lemma base58_accumulate_malformed b c :
  In c b -> base58.b58 c = 255 -> base58.accumulate b = None.
Proof.
  intros Hin Hc. induction b as [|x b IH]; [ destruct Hin |].
  cbn [base58.accumulate].
  destruct Hin as [-> | Hin].
  - destruct (base58.accumulate b) as [[answer j]|]; [| reflexivity].
    rewrite Hc. reflexivity.
  - rewrite (IH Hin). reflexivity.
Qed.

Lemma base58_Decode_malformed s :
  base58.malformed s -> base58.Decode s = [].
Proof.
  intros (c & Hin & Hc). unfold base58.Decode.
  rewrite (base58_accumulate_malformed _ _ Hin Hc). reflexivity.
Qed.

(** ** Examples: the decoders and one migration, evaluated *)

Example hex_deadbeef : hex.DecodeString "deadbeef" = ([222; 173; 190; 239], None).
Proof. reflexivity. Qed.

Example hex_odd_length : hex.DecodeString "deadbee" = ([222; 173; 190], Some hex.ErrLength).
Proof. reflexivity. Qed.

Example hex_bad_byte : hex.DecodeString "abzz" = ([171], Some (hex.InvalidByteError 122)).
Proof. reflexivity. Qed.

Example base58_hello : base58.Decode "StV1DL6CwTryKyV" = bytes_of_string "hello world".
Proof. vm_compute. reflexivity. Qed.

Example base58_leading_ones : base58.Decode "112" = [0; 0; 1].
Proof. vm_compute. reflexivity. Qed.

Example base58_bad_digit : base58.Decode "0bad-address-l" = [].
Proof. vm_compute. reflexivity. Qed.

Example migrate_btc_usd :
  outcome (migrateV3Claim sample_languages sample_source_types sample_btc_usd) empty_heap
  = Some
      (Some
         (pb.Claim.mk (Some pb.Claim__0_0_1) (Some pb.Claim_streamType)
            (Some
               (pb.Stream.mk (Some pb.Stream__0_0_1)
                  (Some
                     (pb.Metadata.mk (Some pb.Metadata__0_1_0) (Some 2) (Some "title")
                        (Some "description") (Some "author") (Some "license") (Some true)
                        (Some
                           (pb.Fee.mk (Some pb.Fee__0_0_1) (Some pb.Fee_BTC)
                              (bytes_of_string "hello world") (Some 1065353216)))
                        None (Some "https://example.org/license")))
                  (Some
                     (pb.Source.mk (Some pb.Source__0_0_1) (Some 1) [222; 173; 190; 239]
                        (Some "video/mp4")))))
            None),
       None).
Proof. vm_compute. reflexivity. Qed.

(** ** Properties of the migration *)

Section Properties.
Context (Metadata_Language_value Source_SourceTypes_value : gmap string Z).

Local Abbreviation migrate :=
  (migrator_of Metadata_Language_value Source_SourceTypes_value).

Local Ltac open_outcome :=
  rewrite migrator_outcome;
  unfold fee_of, metadata_of, source_of, stream_of, migrated, migrated_Metadata,
    migrated_Source;
  red_pb.

(** C1, as amended.  The claim returned for a legacy record of any
    generation always carries a Fee sub-message in its Metadata, with
    the fixed fee version tag, whether or not the record has a fee
    descriptor.  What tells the two cases apart is the content of that
    sub-message: with a descriptor its currency and amount are set,
    without one it holds the version tag and nothing else. *)
Theorem fee_submessage_always_attached r h :
  exists c f e,
    outcome (migrate r) h = Some (Some c, e)
    /\ fee_of c = Some f
    /\ pb.Fee.Version f = Some pb.Fee__0_0_1
    /\ match legacy_Fee r with
       | Some _ => is_Some (pb.Fee.Currency f) /\ is_Some (pb.Fee.Amount f)
       | None => f = pb.Fee.mk (Some pb.Fee__0_0_1) None [] None
       end.
Proof.
  open_outcome. eexists _, _, _.
  split; [ reflexivity |]. split; [ reflexivity |].
  unfold migrated_Fee. destruct (legacy_Fee r) as [fee|].
  - destruct (fee_settings fee) as [[amount currency] address].
    cbn. split; [ reflexivity |]. split; eexists; reflexivity.
  - cbn. split; reflexivity.
Qed.

(** C2, as amended.  When the content digest of a legacy record is not
    valid hexadecimal, the migrator returns the error of the hex
    decoder together with a non-nil claim, populated like any other:
    the five version tags and the claim type are the fixed constants,
    the publisher signature is absent, the Metadata has the title, the
    description, the author, the license, the thumbnail, the language
    code, the NSFW flag and the license URL that the record gives for
    its generation, the Fee is the one that the fee descriptor gives
    (its version tag only without a descriptor), and the Source has the
    content type of the record and the source type of [lbry_sd_hash].
    The source bytes are what the decoder returned with the error.
    Discarding that claim is left to the caller. *)
Theorem bad_digest_returns_error_and_claim r h :
  hex.valid (legacy_LbrySDHash r) = false ->
  exists c e m so s f,
    outcome (migrate r) h = Some (Some c, Some e)
    /\ hex.DecodeString (legacy_LbrySDHash r) = (pb.Source.Source so, Some e)
    /\ source_of c = Some so
    /\ metadata_of c = Some m
    /\ pb.Metadata.Title m = Some (legacy_Title r)
    /\ pb.Metadata.Description m = Some (legacy_Description r)
    /\ pb.Metadata.Author m = Some (legacy_Author r)
    /\ pb.Metadata.License m = Some (legacy_License r)
    /\ pb.Metadata.Thumbnail m = legacy_Thumbnail r
    /\ pb.Metadata.Language m
       = Some match Metadata_Language_value !! legacy_Language r with
              | Some code => code
              | None => 0
              end
    /\ match r with
       | V1 _ => pb.Metadata.Nsfw m = Some false /\ pb.Metadata.LicenseUrl m = None
       | V2 v =>
           pb.Metadata.Nsfw m = Some (V2Claim.NSFW v)
           /\ pb.Metadata.LicenseUrl m = V2Claim.LicenseURL v
       | V3 v =>
           pb.Metadata.Nsfw m = Some (V3Claim.NSFW v)
           /\ pb.Metadata.LicenseUrl m = V3Claim.LicenseURL v
       end
    /\ fee_of c = Some f
    /\ match legacy_Fee r with
       | Some fee =>
           pb.Fee.Currency f = Some (snd (fst (fee_settings fee)))
           /\ pb.Fee.Amount f = Some (fst (fst (fee_settings fee)))
           /\ pb.Fee.Address f = base58.Decode (snd (fee_settings fee))
       | None => f = pb.Fee.mk (Some pb.Fee__0_0_1) None [] None
       end
    /\ pb.Source.ContentType so = Some (legacy_ContentType r)
    /\ pb.Source.SourceType so
       = Some match Source_SourceTypes_value !! lbrySDHash with
              | Some code => code
              | None => 0
              end
    /\ pb.Claim.PublisherSignature c = None
    /\ pb.Claim.Version c = Some pb.Claim__0_0_1
    /\ pb.Claim.ClaimType c = Some pb.Claim_streamType
    /\ stream_of c = Some s
    /\ pb.Stream.Version s = Some pb.Stream__0_0_1
    /\ pb.Metadata.Version m = Some pb.Metadata__0_1_0
    /\ pb.Source.Version so = Some pb.Source__0_0_1
    /\ pb.Fee.Version f = Some pb.Fee__0_0_1.
Proof.
  intros Hbad. destruct (hex_DecodeString_invalid _ Hbad) as [e He].
  open_outcome. rewrite He.
  eexists _, e, _, (migrated_Source Source_SourceTypes_value r), _, _.
  split; [ reflexivity |].
  split.
  { unfold migrated_Source. cbn [pb.Source.Source]. rewrite <- He.
    destruct (hex.DecodeString (legacy_LbrySDHash r)); reflexivity. }
  do 7 (split; [ reflexivity |]).
  split; [ reflexivity |].
  split; [ destruct r; split; reflexivity |].
  split; [ reflexivity |].
  split.
  { unfold migrated_Fee. destruct (legacy_Fee r) as [fee|]; [| reflexivity ].
    destruct (fee_settings fee) as [[amount currency] address].
    repeat split. }
  split; [ reflexivity |].
  split; [ reflexivity |].
  do 7 (split; [ reflexivity |]).
  unfold migrated_Fee. destruct (legacy_Fee r) as [fee|]; [| reflexivity ].
  destruct (fee_settings fee) as [[amount currency] address]. reflexivity.
Qed.

(** C3.  In the claim returned for any legacy record, the version tags
    of the Claim, the Stream, the Metadata, the Source and the Fee, and
    the claim type, are the fixed constants of [newClaim], whatever the
    record holds. *)
Theorem version_tags_fixed r h :
  exists c s m so f e,
    outcome (migrate r) h = Some (Some c, e)
    /\ pb.Claim.Version c = Some pb.Claim__0_0_1
    /\ pb.Claim.ClaimType c = Some pb.Claim_streamType
    /\ stream_of c = Some s /\ pb.Stream.Version s = Some pb.Stream__0_0_1
    /\ metadata_of c = Some m /\ pb.Metadata.Version m = Some pb.Metadata__0_1_0
    /\ source_of c = Some so /\ pb.Source.Version so = Some pb.Source__0_0_1
    /\ fee_of c = Some f /\ pb.Fee.Version f = Some pb.Fee__0_0_1.
Proof.
  open_outcome. eexists _, _, _, _, _, _.
  split; [ reflexivity |].
  repeat (split; [ reflexivity |]).
  unfold migrated_Fee. destruct (legacy_Fee r) as [fee|]; [| reflexivity ].
  destruct (fee_settings fee) as [[amount currency] address]. reflexivity.
Qed.

(** C4.  For a legacy record with a fee descriptor, the branches are
    inspected in the order BTC, LBC, USD and the first populated one
    alone gives the currency, the amount and the address string that
    is base58-decoded: a populated BTC branch wins whatever the other
    two hold, LBC wins when BTC is empty, USD only when both are. *)
Theorem fee_branch_priority r h fee :
  legacy_Fee r = Some fee ->
  exists c f e,
    outcome (migrate r) h = Some (Some c, e)
    /\ fee_of c = Some f
    /\ (forall btc, Fee.BTC fee = Some btc ->
          pb.Fee.Currency f = Some pb.Fee_BTC
          /\ pb.Fee.Amount f = Some (FeeInfo.Amount btc)
          /\ pb.Fee.Address f = base58.Decode (FeeInfo.Address btc))
    /\ (forall lbc, Fee.BTC fee = None -> Fee.LBC fee = Some lbc ->
          pb.Fee.Currency f = Some pb.Fee_LBC
          /\ pb.Fee.Amount f = Some (FeeInfo.Amount lbc)
          /\ pb.Fee.Address f = base58.Decode (FeeInfo.Address lbc))
    /\ (forall usd, Fee.BTC fee = None -> Fee.LBC fee = None ->
          Fee.USD fee = Some usd ->
          pb.Fee.Currency f = Some pb.Fee_USD
          /\ pb.Fee.Amount f = Some (FeeInfo.Amount usd)
          /\ pb.Fee.Address f = base58.Decode (FeeInfo.Address usd)).
Proof.
  intros Hfee. open_outcome. rewrite Hfee. eexists _, _, _.
  split; [ reflexivity |]. split; [ reflexivity |].
  unfold migrated_Fee, fee_settings.
  split; [| split ].
  - intros btc ->. repeat split.
  - intros lbc -> ->. repeat split.
  - intros usd -> -> ->. repeat split.
Qed.

(** C5.  For a legacy record whose fee descriptor is present with none
    of the BTC, LBC and USD branches populated, the migration does not
    fail on that account (the only error is that of the digest): the
    returned Fee has currency LBC, amount 0.0 and zero-length address
    bytes. *)
Theorem fee_no_branch_defaults r h fee :
  legacy_Fee r = Some fee ->
  Fee.BTC fee = None -> Fee.LBC fee = None -> Fee.USD fee = None ->
  exists c f,
    outcome (migrate r) h
    = Some (Some c, snd (hex.DecodeString (legacy_LbrySDHash r)))
    /\ fee_of c = Some f
    /\ pb.Fee.Currency f = Some pb.Fee_LBC
    /\ pb.Fee.Amount f = Some float32_zero
    /\ pb.Fee.Address f = []
    /\ length (pb.Fee.Address f) = 0%nat.
Proof.
  intros Hfee Hbtc Hlbc Husd. open_outcome. rewrite Hfee. eexists _, _.
  split; [ reflexivity |]. split; [ reflexivity |].
  unfold migrated_Fee, fee_settings. rewrite Hbtc, Hlbc, Husd.
  repeat split.
Qed.

(** C6.  The claim migrated from a V1 record has NSFW set to false and
    no license URL; the claim migrated from a V2 or a V3 record has the
    NSFW flag and the license URL of the record, unchanged. *)
Theorem nsfw_license_url_policy r h :
  exists c m e,
    outcome (migrate r) h = Some (Some c, e)
    /\ metadata_of c = Some m
    /\ match r with
       | V1 _ => pb.Metadata.Nsfw m = Some false /\ pb.Metadata.LicenseUrl m = None
       | V2 v =>
           pb.Metadata.Nsfw m = Some (V2Claim.NSFW v)
           /\ pb.Metadata.LicenseUrl m = V2Claim.LicenseURL v
       | V3 v =>
           pb.Metadata.Nsfw m = Some (V3Claim.NSFW v)
           /\ pb.Metadata.LicenseUrl m = V3Claim.LicenseURL v
       end.
Proof.
  open_outcome. eexists _, _, _.
  split; [ reflexivity |]. split; [ reflexivity |].
  destruct r; split; reflexivity.
Qed.

(** C7.  The language of the migrated claim is the entry of the
    language table under exactly the free-text language of the record,
    and the zero member of the enumeration when the table has no such
    entry; the migration does not fail on that account, its error is
    that of the digest whatever the language. *)
Theorem language_lookup r h :
  exists c m,
    outcome (migrate r) h
    = Some (Some c, snd (hex.DecodeString (legacy_LbrySDHash r)))
    /\ metadata_of c = Some m
    /\ pb.Metadata.Language m
       = Some match Metadata_Language_value !! legacy_Language r with
              | Some code => code
              | None => 0
              end.
Proof.
  open_outcome. eexists _, _.
  split; [ reflexivity |]. split; [ reflexivity |].
  unfold index. destruct (Metadata_Language_value !! legacy_Language r); reflexivity.
Qed.

(** C8.  For a legacy record with a fee descriptor, the address bytes
    of the returned Fee are the base58 decoding of the address string
    of the chosen branch (the empty string when no branch is
    populated).  The decoder yields zero-length bytes on every
    malformed string, so a malformed address gives an empty address and
    never an error: the error of the migration is that of the digest
    alone. *)
Theorem address_always_decoded_leniently r h fee :
  legacy_Fee r = Some fee ->
  exists c f address,
    outcome (migrate r) h
    = Some (Some c, snd (hex.DecodeString (legacy_LbrySDHash r)))
    /\ fee_of c = Some f
    /\ address = snd (fee_settings fee)
    /\ pb.Fee.Address f = base58.Decode address
    /\ (base58.malformed address -> pb.Fee.Address f = [])
    /\ (forall s, base58.malformed s -> base58.Decode s = []).
Proof.
  intros Hfee. open_outcome. rewrite Hfee. eexists _, _, _.
  split; [ reflexivity |]. split; [ reflexivity |]. split; [ reflexivity |].
  unfold migrated_Fee.
  destruct (fee_settings fee) as [[amount currency] address]. cbn [snd pb.Fee.Address].
  split; [ reflexivity |].
  split; [ apply base58_Decode_malformed | exact base58_Decode_malformed ].
Qed.

(** C9.  The claim returned for a legacy record of any generation has
    no publisher signature, whatever the record holds. *)
Theorem publisher_signature_absent r h :
  exists c e,
    outcome (migrate r) h = Some (Some c, e)
    /\ pb.Claim.PublisherSignature c = None.
Proof.
  open_outcome. eexists _, _. split; reflexivity.
Qed.

(** C10.  On a V2 record and a V3 record with the same fields,
    [migrateV2Claim] and [migrateV3Claim] are the same computation:
    from any heap they return the same pointer and the same error and
    leave the same heap, so the caller sees the same claim and the
    same error. *)
Theorem migrateV2_V3_same v2 v3 h :
  same_fields v2 v3 ->
  migrateV2Claim Metadata_Language_value Source_SourceTypes_value v2 h
  = migrateV3Claim Metadata_Language_value Source_SourceTypes_value v3 h
  /\ outcome (migrate (V2 v2)) h = outcome (migrate (V3 v3)) h.
Proof.
  destruct v2 as [t2 d2 a2 l2 li2 [s2] c2 th2 f2 u2 n2].
  destruct v3 as [t3 d3 a3 l3 li3 [s3] c3 th3 f3 u3 n3].
  unfold same_fields. red_legacy.
  intros (-> & -> & -> & -> & -> & -> & -> & -> & -> & -> & ->).
  split; reflexivity.
Qed.

End Properties.

(** ** The properties at the sample inputs *)

(** C1, counterexample.  The V1 sample without a fee descriptor migrates
    to a claim whose Metadata does carry a Fee sub-message: the one that
    [newClaim] attached, holding its version tag only. *)
Lemma fee_attached_without_legacy_fee :
  legacy_Fee (V1 sample_no_fee) = None
  /\ exists c e,
       outcome (migrator_of sample_languages sample_source_types (V1 sample_no_fee))
         empty_heap
       = Some (Some c, e)
       /\ fee_of c = Some (pb.Fee.mk (Some pb.Fee__0_0_1) None [] None)
       /\ fee_of c <> None.
Proof.
  split; [ reflexivity |].
  exists (migrated sample_languages sample_source_types (V1 sample_no_fee)), None.
  split; [ vm_compute; reflexivity |].
  split; [ vm_compute; reflexivity | discriminate ].
Qed.

(** C2, counterexample.  The digest [abzz] is not valid hexadecimal, and
    the migration of the sample that carries it returns, with the error
    on the byte [z], a claim that is not nil and whose source holds the
    one byte decoded before the error. *)
Lemma bad_digest_claim_not_nil :
  hex.valid (legacy_LbrySDHash (V1 sample_bad_digest)) = false
  /\ exists c so,
       outcome (migrator_of sample_languages sample_source_types (V1 sample_bad_digest))
         empty_heap
       = Some (Some c, Some (hex.InvalidByteError 122))
       /\ source_of c = Some so
       /\ pb.Source.Source so = [171].
Proof.
  split; [ reflexivity |].
  exists (migrated sample_languages sample_source_types (V1 sample_bad_digest)).
  eexists. split; [ vm_compute; reflexivity |].
  split; [ vm_compute; reflexivity | reflexivity ].
Qed.

Lemma bad_digest_returns_error_and_claim_witness :
  hex.valid (legacy_LbrySDHash (V1 sample_bad_digest)) = false
  /\ exists c e m so f,
       outcome (migrator_of sample_languages sample_source_types (V1 sample_bad_digest))
         empty_heap
       = Some (Some c, Some e)
       /\ hex.DecodeString (legacy_LbrySDHash (V1 sample_bad_digest))
          = (pb.Source.Source so, Some e)
       /\ source_of c = Some so
       /\ metadata_of c = Some m
       /\ pb.Metadata.Title m = Some (legacy_Title (V1 sample_bad_digest))
       /\ pb.Metadata.Language m = Some 1
       /\ fee_of c = Some f
       /\ f = pb.Fee.mk (Some pb.Fee__0_0_1) None [] None
       /\ pb.Claim.Version c = Some pb.Claim__0_0_1.
Proof.
  split; [ reflexivity |].
  destruct (bad_digest_returns_error_and_claim sample_languages sample_source_types
              (V1 sample_bad_digest) empty_heap eq_refl)
    as (c & e & m & so & s & f & Hout & Hhex & Hso & Hm & Htitle & _ & _ & _ & _
        & Hlang & _ & Hf & Hfee & _ & _ & _ & Hversion & _).
  exists c, e, m, so, f.
  repeat (split; [ assumption |]). exact Hversion.
Defined.

(** With both BTC and USD populated, the returned fee is in BTC. *)
Lemma fee_branch_priority_witness :
  legacy_Fee (V3 sample_btc_usd) = Some sample_fee_btc_usd
  /\ exists c f e,
       outcome (migrator_of sample_languages sample_source_types (V3 sample_btc_usd))
         empty_heap
       = Some (Some c, e)
       /\ fee_of c = Some f
       /\ pb.Fee.Currency f = Some pb.Fee_BTC
       /\ pb.Fee.Amount f = Some 1065353216
       /\ pb.Fee.Address f = base58.Decode "StV1DL6CwTryKyV".
Proof.
  split; [ reflexivity |].
  destruct (fee_branch_priority sample_languages sample_source_types
              (V3 sample_btc_usd) empty_heap sample_fee_btc_usd eq_refl)
    as (c & f & e & Hout & Hfee & Hbtc & _).
  exists c, f, e. split; [ exact Hout |]. split; [ exact Hfee |].
  exact (Hbtc _ eq_refl).
Defined.

Lemma fee_no_branch_defaults_witness :
  legacy_Fee (V2 sample_empty_fee) = Some sample_fee_empty
  /\ Fee.BTC sample_fee_empty = None
  /\ Fee.LBC sample_fee_empty = None
  /\ Fee.USD sample_fee_empty = None
  /\ exists c f,
       outcome (migrator_of sample_languages sample_source_types (V2 sample_empty_fee))
         empty_heap
       = Some (Some c, snd (hex.DecodeString (legacy_LbrySDHash (V2 sample_empty_fee))))
       /\ fee_of c = Some f
       /\ pb.Fee.Currency f = Some pb.Fee_LBC
       /\ pb.Fee.Amount f = Some float32_zero
       /\ pb.Fee.Address f = []
       /\ length (pb.Fee.Address f) = 0%nat.
Proof.
  repeat (split; [ reflexivity |]).
  apply (fee_no_branch_defaults sample_languages sample_source_types
           (V2 sample_empty_fee) empty_heap sample_fee_empty); reflexivity.
Defined.

(** A malformed address: empty address bytes, and no error. *)
Lemma address_always_decoded_leniently_witness :
  legacy_Fee (V2 sample_bad_address) = Some sample_fee_bad_address
  /\ base58.malformed "0bad-address-l"
  /\ exists c f,
       outcome (migrator_of sample_languages sample_source_types (V2 sample_bad_address))
         empty_heap
       = Some (Some c, None)
       /\ fee_of c = Some f
       /\ pb.Fee.Address f = [].
Proof.
  assert (Hbad : base58.malformed "0bad-address-l").
  { exists "0"%char. split; [ left; reflexivity | reflexivity ]. }
  split; [ reflexivity |]. split; [ exact Hbad |].
  destruct (address_always_decoded_leniently sample_languages sample_source_types
              (V2 sample_bad_address) empty_heap sample_fee_bad_address eq_refl)
    as (c & f & address & Hout & Hfee & Haddress & _ & Hempty & _).
  exists c, f. split; [ exact Hout |]. split; [ exact Hfee |].
  apply Hempty. rewrite Haddress. exact Hbad.
Defined.

Lemma migrateV2_V3_same_witness :
  same_fields sample_V2 sample_V3
  /\ migrateV2Claim sample_languages sample_source_types sample_V2 empty_heap
     = migrateV3Claim sample_languages sample_source_types sample_V3 empty_heap
  /\ outcome (migrator_of sample_languages sample_source_types (V2 sample_V2)) empty_heap
     = outcome (migrator_of sample_languages sample_source_types (V3 sample_V3)) empty_heap.
Proof.
  assert (H : same_fields sample_V2 sample_V3) by (repeat split).
  split; [ exact H |].
  exact (migrateV2_V3_same sample_languages sample_source_types sample_V2 sample_V3
           empty_heap H).
Defined.

(** ** More on the heap operations of the migration *)

(** The heap as its six stores, each with its latest write. *)
Ltac norm_heap :=
  unfold with_cells, claimS, streamS, metadataS, sourceS, feeS, signatureS,
    with_claims, with_streams, with_metadatas, with_sources, with_fees, with_signatures;
  cbn [claims streams metadatas sources fees signatures];
  rewrite ?insert_insert_eq.

Lemma run_assign_to {A} (S : Store A) l upd a h h' :
  cells S h !! l = Some a ->
  h' = with_cells S (insert l (upd a)) h ->
  assign S (Some l) upd h = Some (tt, h').
Proof. intros H ->. apply run_assign, H. Qed.

Lemma run_new_to {A} (S : Store A) zero h l h' :
  l = fresh (dom (cells S h)) ->
  h' = with_cells S (insert l zero) h ->
  new S zero h = Some (Some l, h').
Proof. intros -> ->. reflexivity. Qed.

(** As [run], for a heap that is known through hypotheses on its cells;
    the heap is normalised after each write. *)
Ltac cell_known := red_heap; first [ eassumption | apply lookup_insert_eq ].

Ltac run_known :=
  lazymatch goal with
  | |- bind _ _ _ = _ =>
      eapply run_bind; [ run_known | cbv beta; red_heap; red_pb; run_known ]
  | |- ret _ _ = _ => reflexivity
  | |- new _ _ _ = _ =>
      eapply run_new_to; [ red_heap; reflexivity | norm_heap; reflexivity ]
  | |- load _ (Some _) _ = _ => apply run_load; cell_known
  | |- assign _ (Some _) _ _ = _ =>
      eapply run_assign_to; [ cell_known | red_pb; norm_heap; reflexivity ]
  | |- getter _ _ (Some _) _ = _ => apply run_getter; cell_known
  | |- GetStream _ _ = _ => unfold GetStream; run_known
  | |- GetMetadata _ _ = _ => unfold GetMetadata; run_known
  | |- GetSource _ _ = _ => unfold GetSource; run_known
  | |- GetFee _ _ = _ => unfold GetFee; run_known
  | |- GetStream_of _ _ = _ => unfold GetStream_of; run_known
  | |- _ => idtac
  end.

(** X1.  On a claim whose stream, metadata and fee are allocated,
    [setFee] with a fee descriptor writes the amount, the currency and
    the decoded address of the selected branch into that Fee object and
    changes nothing else: the version tag of the Fee stays, and so does
    every other object of the heap. *)
Theorem setFee_effect h fee lc C ls S lm Md lf F :
  claims h !! lc = Some C -> pb.Claim.Stream C = Some ls ->
  streams h !! ls = Some S -> pb.Stream.Metadata S = Some lm ->
  metadatas h !! lm = Some Md -> pb.Metadata.Fee Md = Some lf ->
  fees h !! lf = Some F ->
  setFee (Some fee) (Some lc) h
  = Some (tt,
          with_fees
            (insert lf
               (pb.Fee.mk (pb.Fee.Version F) (Some (snd (fst (fee_settings fee))))
                  (base58.Decode (snd (fee_settings fee)))
                  (Some (fst (fst (fee_settings fee))))))
            h).
Proof.
  intros HC HCs HS HSm HMd HMf HF.
  destruct C as [cv ct cs cp], S as [sv sm ss], Md as [v l t d a li n mf th u].
  cbn in HCs, HSm, HMf. subst cs sm mf.
  unfold setFee. fold (fee_settings fee).
  destruct (fee_settings fee) as [[amount currency] address].
  cbn [fst snd].
  destruct h as [hc hs hm hso hf hsg]. red_heap. cbn [claims streams metadatas fees] in *.
  destruct F as [fv fc fa fam].
  etransitivity; [ run_known | reflexivity ].
Qed.

(** X2.  [setFee] relies on the Fee that [newClaim] attached.  Without
    a fee descriptor it does nothing, whatever the claim pointer, nil
    included.  With a descriptor it panics on a nil claim pointer, and
    on a claim whose Metadata has no Fee: the nil-safe getters return
    nil down the chain and the first field assignment goes through a
    nil Fee pointer. *)
Theorem setFee_needs_fee h fee :
  (forall pbClaim, setFee None pbClaim h = Some (tt, h))
  /\ setFee (Some fee) None h = None
  /\ (forall lc C ls S lm Md,
        claims h !! lc = Some C -> pb.Claim.Stream C = Some ls ->
        streams h !! ls = Some S -> pb.Stream.Metadata S = Some lm ->
        metadatas h !! lm = Some Md -> pb.Metadata.Fee Md = None ->
        setFee (Some fee) (Some lc) h = None).
Proof.
  split; [ reflexivity |].
  unfold setFee. fold (fee_settings fee).
  destruct (fee_settings fee) as [[amount currency] address].
  split; [ cbv [bind GetStream GetMetadata GetFee getter ret assign]; reflexivity |].
  intros lc C ls S lm Md HC HCs HS HSm HMd HMf.
  destruct C as [cv ct cs cp], S as [sv sm ss], Md as [v l t d a li n mf th u].
  cbn in HCs, HSm, HMf. subst cs sm mf.
  eapply run_bind; [ run_known | reflexivity ].
Qed.

(** X3.  On a claim struct whose stream and metadata are allocated,
    [setMetaData] writes its eight arguments into that Metadata object,
    the one shared with the caller's claim although the struct was
    passed by value, and changes nothing else: the version tag and the
    Fee pointer of the Metadata stay, and so does every other object. *)
Theorem setMetaData_effect h claim ls S lm Md
    author description language license licenseURL title thumbnail nsfw :
  pb.Claim.Stream claim = Some ls ->
  streams h !! ls = Some S -> pb.Stream.Metadata S = Some lm ->
  metadatas h !! lm = Some Md ->
  setMetaData claim author description language license licenseURL title thumbnail nsfw h
  = Some (tt,
          with_metadatas
            (insert lm
               (pb.Metadata.mk (pb.Metadata.Version Md) (Some language) (Some title)
                  (Some description) (Some author) (Some license) (Some nsfw)
                  (pb.Metadata.Fee Md) thumbnail licenseURL))
            h).
Proof.
  intros HCs HS HSm HMd.
  destruct claim as [cv ct cs cp], S as [sv sm ss], Md as [v l t d a li n mf th u].
  cbn in HCs, HSm. subst cs sm.
  unfold setMetaData.
  destruct h as [hc hs hm hso hf hsg]. cbn [claims streams metadatas fees] in *.
  etransitivity; [ run_known | reflexivity ].
Qed.

(** A fresh address holds nothing. *)
Lemma fresh_lookup {A} (m : gmap ptr A) : m !! fresh (dom m) = None.
Proof. apply not_elem_of_dom, is_fresh. Qed.

(** A heap with one more object in each store, at the fresh address. *)
Lemma one_object_each_included h C S Md So F Sg :
  heap_included h
    (mkHeap (<[fresh (dom (claims h)) := C]> (claims h))
       (<[fresh (dom (streams h)) := S]> (streams h))
       (<[fresh (dom (metadatas h)) := Md]> (metadatas h))
       (<[fresh (dom (sources h)) := So]> (sources h))
       (<[fresh (dom (fees h)) := F]> (fees h))
       (<[fresh (dom (signatures h)) := Sg]> (signatures h))).
Proof.
  unfold heap_included. cbn [claims streams metadatas sources fees signatures].
  repeat split; apply insert_subseteq, fresh_lookup.
Qed.

(** Reading back is not affected by objects added to the heap. *)
Lemma view_ptr_included {A B} (m m' : gmap ptr A) (view view' : A -> option B) p v :
  m ⊆ m' ->
  (forall a b, view a = Some b -> view' a = Some b) ->
  view_ptr m view p = Some v -> view_ptr m' view' p = Some v.
Proof.
  intros Hm Hview. destruct p as [l|]; [| exact id ].
  unfold view_ptr. destruct (m !! l) as [a|] eqn:Hl; [| discriminate ].
  rewrite (lookup_weaken _ _ _ _ Hl Hm).
  destruct (view a) as [b|] eqn:Ha; [| discriminate ].
  rewrite (Hview _ _ Ha). exact id.
Qed.

Lemma view_Claim_included h h' p v :
  heap_included h h' -> view_Claim h p = Some v -> view_Claim h' p = Some v.
Proof.
  intros (Hc & Hs & Hm & Hso & Hf & Hsg).
  unfold view_Claim. apply view_ptr_included; [ exact Hc |].
  intros c cv. unfold view_Claim_struct.
  destruct (view_ptr (streams h) (view_Stream h) (pb.Claim.Stream c)) as [st|] eqn:Hst;
    [| discriminate ].
  destruct (view_ptr (signatures h) Some (pb.Claim.PublisherSignature c)) as [sg|] eqn:Hsig;
    [| discriminate ].
  rewrite (view_ptr_included _ (signatures h') Some Some _ _ Hsg (fun _ _ H => H) Hsig).
  erewrite (view_ptr_included (streams h) (streams h')); [ exact id | exact Hs | | exact Hst ].
  intros s sv. unfold view_Stream.
  destruct (view_ptr (metadatas h) (view_Metadata h) (pb.Stream.Metadata s)) as [md|] eqn:Hmd;
    [| discriminate ].
  destruct (view_ptr (sources h) Some (pb.Stream.Source s)) as [so|] eqn:Hsrc;
    [| discriminate ].
  rewrite (view_ptr_included _ (sources h') Some Some _ _ Hso (fun _ _ H => H) Hsrc).
  erewrite (view_ptr_included (metadatas h) (metadatas h')); [ exact id | exact Hm | | exact Hmd ].
  intros m mv. unfold view_Metadata.
  destruct (view_ptr (fees h) Some (pb.Metadata.Fee m)) as [fe|] eqn:Hfe; [| discriminate ].
  rewrite (view_ptr_included _ (fees h') Some Some _ _ Hf (fun _ _ H => H) Hfe).
  exact id.
Qed.

(** X4.  From any heap, [newClaim] returns a non-nil pointer to a claim
    that was not in the heap before; the claim reads back as the
    skeleton: stream, metadata, source, fee and publisher signature all
    allocated, each holding its version tag and nothing else.  Every
    object that was in the heap is still there, unchanged. *)
Theorem newClaim_skeleton h :
  exists p h',
    newClaim h = Some (Some p, h')
    /\ claims h !! p = None
    /\ heap_included h h'
    /\ view_Claim h' (Some p) = Some (Some skeleton).
Proof.
  destruct h as [c s m so f sg].
  eexists _, _. split; [ unfold newClaim; cbv zeta; run_known |].
  split; [ apply fresh_lookup |].
  split.
  - exact (one_object_each_included (mkHeap c s m so f sg) _ _ _ _ _ _).
  - read_back. reflexivity.
Qed.

(** A digest decoded without error gives one byte for two characters. *)
Lemma hex_Decode_length src :
  snd (hex.Decode src) = None ->
  (2 * length (fst (hex.Decode src)))%nat = length src.
Proof.
  induction src as [|p|p q rest IH] using list_pairs_ind.
  - reflexivity.
  - cbn. destruct (hex.fromHexChar p); discriminate.
  - cbn [hex.Decode].
    destruct (hex.fromHexChar p); [| discriminate ].
    destruct (hex.fromHexChar q); [| discriminate ].
    destruct (hex.Decode rest) as [dst err]. cbn [fst snd length] in *.
    intros Herr. specialize (IH Herr). lia.
Qed.

Lemma length_bytes_of_string s : length (bytes_of_string s) = String.length s.
Proof.
  unfold bytes_of_string. rewrite length_map.
  induction s as [|c s IH]; [ reflexivity |].
  cbn. rewrite IH. reflexivity.
Qed.

(** A migrator run for its final heap: the initial heap with one more
    object in each store. *)
Ltac run_migrator_heap :=
  eexists _, _, _, _, _, _, _; split;
  [ unfold newClaim, setMetaData; cbv zeta; run_known
  | reflexivity ].

Section Grows.
Context (Metadata_Language_value Source_SourceTypes_value : gmap string Z).

Local Abbreviation migrate :=
  (migrator_of Metadata_Language_value Source_SourceTypes_value).

Lemma migrator_grows r h :
  exists h' C S Md So F Sg,
    migrate r h
    = Some ((Some (fresh (dom (claims h))),
             snd (hex.DecodeString (legacy_LbrySDHash r))), h')
    /\ h' = mkHeap (<[fresh (dom (claims h)) := C]> (claims h))
              (<[fresh (dom (streams h)) := S]> (streams h))
              (<[fresh (dom (metadatas h)) := Md]> (metadatas h))
              (<[fresh (dom (sources h)) := So]> (sources h))
              (<[fresh (dom (fees h)) := F]> (fees h))
              (<[fresh (dom (signatures h)) := Sg]> (signatures h)).
Proof.
  destruct h as [c s m so f sg]. cbn [claims streams metadatas sources fees signatures].
  destruct r as [v|v|v]; cbn [migrator_of].
  - destruct v as [title descr author lang lic [digest] ctype thumb fee].
    unfold migrateV1Claim, setFee. red_legacy.
    destruct (hex.DecodeString digest) as [src err].
    destruct fee as [fee|].
    + fold (fee_settings fee).
      destruct (fee_settings fee) as [[amount currency] address].
      run_migrator_heap.
    + run_migrator_heap.
  - destruct v as [title descr author lang lic [digest] ctype thumb fee url nsfw].
    unfold migrateV2Claim, setFee. red_legacy.
    destruct (hex.DecodeString digest) as [src err].
    destruct fee as [fee|].
    + fold (fee_settings fee).
      destruct (fee_settings fee) as [[amount currency] address].
      run_migrator_heap.
    + run_migrator_heap.
  - destruct v as [title descr author lang lic [digest] ctype thumb fee url nsfw].
    unfold migrateV3Claim, setFee. red_legacy.
    destruct (hex.DecodeString digest) as [src err].
    destruct fee as [fee|].
    + fold (fee_settings fee).
      destruct (fee_settings fee) as [[amount currency] address].
      run_migrator_heap.
    + run_migrator_heap.
Qed.

(** The pointer and the final heap of a run, with what the caller reads
    behind the pointer. *)
Lemma migrator_run r h :
  exists p e h',
    migrate r h = Some ((Some p, e), h')
    /\ claims h !! p = None
    /\ heap_included h h'
    /\ view_Claim h' (Some p)
       = Some (Some (migrated Metadata_Language_value Source_SourceTypes_value r)).
Proof.
  destruct (migrator_grows r h) as (h' & C & S & Md & So & F & Sg & Hrun & Hh').
  exists (fresh (dom (claims h))), (snd (hex.DecodeString (legacy_LbrySDHash r))), h'.
  split; [ exact Hrun |]. split; [ apply fresh_lookup |].
  split; [ rewrite Hh'; apply one_object_each_included |].
  pose proof (migrator_outcome Metadata_Language_value Source_SourceTypes_value r h) as Hout.
  unfold outcome in Hout. rewrite Hrun in Hout.
  destruct (view_Claim h' (Some (fresh (dom (claims h))))) as [c|]; [| discriminate ].
  congruence.
Qed.

(** X5.  A migration never changes or removes an object that was in the
    heap before the call, and the claim it returns is a new one: its
    address held nothing before.  Each call works on a skeleton of its
    own. *)
Theorem migration_allocates_afresh r h :
  exists p e h',
    migrate r h = Some ((Some p, e), h')
    /\ claims h !! p = None
    /\ heap_included h h'.
Proof.
  destruct (migrator_run r h) as (p & e & h' & Hrun & Hfresh & Hincl & _).
  exists p, e, h'. auto.
Qed.

(** X6.  Two migrations in a row return two different claims, and the
    second leaves the first as it was: behind the first pointer the
    caller reads the same claim after the second call as before it. *)
Theorem migrations_do_not_interfere r1 r2 h :
  exists p1 e1 h1 p2 e2 h2 c1,
    migrate r1 h = Some ((Some p1, e1), h1)
    /\ migrate r2 h1 = Some ((Some p2, e2), h2)
    /\ p1 <> p2
    /\ view_Claim h1 (Some p1) = Some (Some c1)
    /\ view_Claim h2 (Some p1) = Some (Some c1).
Proof.
  destruct (migrator_run r1 h) as (p1 & e1 & h1 & Hrun1 & _ & _ & Hview1).
  destruct (migrator_run r2 h1) as (p2 & e2 & h2 & Hrun2 & Hfresh2 & Hincl2 & _).
  exists p1, e1, h1, p2, e2, h2. eexists.
  split; [ exact Hrun1 |]. split; [ exact Hrun2 |].
  split; [| split; [ exact Hview1 | exact (view_Claim_included _ _ _ _ Hincl2 Hview1) ] ].
  intros ->. unfold view_Claim, view_ptr in Hview1. rewrite Hfresh2 in Hview1.
  discriminate.
Qed.

(** X7.  The free-text fields of a legacy record pass to the Metadata
    unchanged (title, description, author, license, and the thumbnail,
    absent when the record has none), and the Source gets the content
    type of the record, the source type that the table of source types
    gives for [lbry_sd_hash] and the bytes that the hex decoder returned
    for the digest. *)
Theorem fields_pass_through r h :
  exists c m so e,
    outcome (migrate r) h = Some (Some c, e)
    /\ metadata_of c = Some m /\ source_of c = Some so
    /\ pb.Metadata.Title m = Some (legacy_Title r)
    /\ pb.Metadata.Description m = Some (legacy_Description r)
    /\ pb.Metadata.Author m = Some (legacy_Author r)
    /\ pb.Metadata.License m = Some (legacy_License r)
    /\ pb.Metadata.Thumbnail m = legacy_Thumbnail r
    /\ pb.Source.ContentType so = Some (legacy_ContentType r)
    /\ pb.Source.SourceType so
       = Some match Source_SourceTypes_value !! lbrySDHash with
              | Some code => code
              | None => 0
              end
    /\ pb.Source.Source so = fst (hex.DecodeString (legacy_LbrySDHash r)).
Proof.
  rewrite migrator_outcome.
  unfold metadata_of, source_of, stream_of, migrated, migrated_Metadata, migrated_Source.
  red_pb. eexists _, _, _, _.
  split; [ reflexivity |]. split; [ reflexivity |]. split; [ reflexivity |].
  repeat split.
Qed.

(** X8.  The error of a migration depends on the digest alone.  When
    the digest is an even number of hexadecimal digits the error is nil
    and the source of the claim has one byte for every two digits;
    otherwise the error is not nil.  No other field of the record can
    make a migration fail. *)
Theorem error_iff_bad_digest r h :
  exists c so e,
    outcome (migrate r) h = Some (Some c, e)
    /\ source_of c = Some so
    /\ if hex.valid (legacy_LbrySDHash r)
       then e = None
            /\ (2 * length (pb.Source.Source so))%nat
               = String.length (legacy_LbrySDHash r)
       else exists err, e = Some err.
Proof.
  rewrite migrator_outcome.
  unfold source_of, stream_of, migrated, migrated_Source. red_pb.
  eexists _, _, _. split; [ reflexivity |]. split; [ reflexivity |].
  cbn [pb.Source.Source].
  destruct (hex.valid (legacy_LbrySDHash r)) eqn:Hvalid.
  - apply hex_DecodeString_valid in Hvalid. split; [ exact Hvalid |].
    rewrite <- length_bytes_of_string. apply hex_Decode_length, Hvalid.
  - apply hex_DecodeString_invalid, Hvalid.
Qed.

End Grows.

(** ** The heap properties at the sample heap *)

Lemma setFee_effect_witness :
  setFee (Some sample_fee_btc_usd) (Some 1%positive) sample_heap
  = Some (tt,
          with_fees
            (insert 4%positive
               (pb.Fee.mk None (Some pb.Fee_BTC) (base58.Decode "StV1DL6CwTryKyV")
                  (Some 1065353216)))
            sample_heap).
Proof.
  exact (setFee_effect sample_heap sample_fee_btc_usd 1%positive sample_claim_struct
           2%positive _ 3%positive _ 4%positive _
           eq_refl eq_refl eq_refl eq_refl eq_refl eq_refl eq_refl).
Defined.

Lemma setMetaData_effect_witness :
  setMetaData sample_claim_struct "author" "description" 1 "license" None "title"
    (Some "thumbnail") false sample_heap
  = Some (tt,
          with_metadatas
            (insert 3%positive
               (pb.Metadata.mk None (Some 1) (Some "title") (Some "description")
                  (Some "author") (Some "license") (Some false) (Some 4%positive)
                  (Some "thumbnail") None))
            sample_heap).
Proof.
  exact (setMetaData_effect sample_heap sample_claim_struct 2%positive _ 3%positive _
           "author" "description" 1 "license" None "title" (Some "thumbnail") false
           eq_refl eq_refl eq_refl eq_refl).
Defined.

(** ** The command [ytsync]: properties *)

(** Case analysis along the tests of [ytSync]. *)
Ltac explore :=
  repeat (match goal with
          | |- context [if ?b then _ else _] => destruct b eqn:?
          | |- context [match ?x with Some _ => _ | None => _ end] => destruct x eqn:?
          | |- context [cmd.Hostname ?w] => destruct (cmd.Hostname w) eqn:?
          | |- context [cmd.user_Current ?w] => destruct (cmd.user_Current w) eqn:?
          end; cbv beta iota).


(** The tests of a branch, as propositions. *)
Ltac to_props :=
  repeat match goal with
         | H : cmd.Start _ _ = _ |- _ => clear H
         | H : _ \/ _ |- _ => destruct H
         | H : (_ && _) = true |- _ => apply andb_true_iff in H; destruct H
         | H : (_ && _) = false |- _ => apply andb_false_iff in H
         | H : negb _ = true |- _ => apply negb_true_iff in H
         | H : negb _ = false |- _ => apply negb_false_iff in H
         | H : String.eqb _ _ = true |- _ => apply String.eqb_eq in H
         | H : String.eqb _ _ = false |- _ => apply String.eqb_neq in H
         | H : (_ =? _) = true |- _ => apply Z.eqb_eq in H
         | H : (_ =? _) = false |- _ => apply Z.eqb_neq in H
         | H : (_ <? _) = true |- _ => apply Z.ltb_lt in H
         | H : (_ <? _) = false |- _ => apply Z.ltb_ge in H
         | H : cmd.user_Current _ = _ |- _ => rewrite H in *; clear H
         end.

(** What is left of a goal once the tests of the branch are known. *)
Ltac by_tests :=
  first [ assumption | discriminate | reflexivity | congruence | lia
        | left; assumption | right; assumption | right; reflexivity
        | left; congruence | right; congruence ].

Ltac on_trace :=
  cbv zeta;
  match goal with |- context [cmd.ytSync ?w ?v] => pattern (cmd.ytSync w v) end;
  let Q := fresh "Q" in
  match goal with |- ?P _ => set (Q := P) end;
  unfold cmd.ytSync; explore; subst Q; cbv beta; cbn.

(** X9.  [ytSync] starts the sync manager exactly when every check
    passes: the status flag is empty or one of the known statuses,
    [--stop-on-error] is not combined with a [--max-tries] other than
    the default, [--max-tries] is at least 1, [--limit] is not negative,
    the seven required environment variables are set, and the blobs
    directory is either given or can be derived from the current user.
    The Slack token, the Slack channel and the lbrycrd string are
    optional. *)
Theorem ytSync_starts_iff w v :
  existsb cmd.is_start (cmd.ytSync w v) = true
  <-> (cmd.syncStatus v = ""
       \/ cmd.InSlice w (cmd.syncStatus v) (cmd.SyncStatuses w) = true)
      /\ (cmd.stopOnError v = true -> cmd.maxTries v = cmd.defaultMaxTries)
      /\ 1 <= cmd.maxTries v
      /\ 0 <= cmd.limit v
      /\ cmd.required_env_set w
      /\ (cmd.Getenv w "BLOBS_DIRECTORY" <> "" \/ snd (cmd.user_Current w) = None).
Proof.
  on_trace.
  all: to_props; unfold cmd.required_env_set; cbn [snd].
  all: split;
    [ first [ discriminate | intros _; repeat split; try intros ?; by_tests ]
    | first [ reflexivity
            | intros (Hstatus & Hstop & Hmax & Hlimit & Henv & Hblobs);
              destruct Henv as (? & ? & ? & ? & ? & ? & ?);
              destruct Hstatus, Hblobs;
              try (specialize (Hstop ltac:(assumption)));
              exfalso; by_tests ] ].
Qed.

(** The manager that [ytSync] starts, if it starts one. *)
Lemma ytSync_manager w v sm :
  In (cmd.sm_Start sm) (cmd.ytSync w v) ->
  sm = cmd.NewSyncManager (cmd.stopOnError v) (cmd.maxTries v)
         (cmd.takeOverExistingChannel v) (cmd.refill v) (cmd.limit v)
         (cmd.skipSpaceCheck v) (cmd.syncUpdate v) (cmd.concurrentJobs v)
         (cmd.concurrentJobs v)
         (if String.eqb (cmd.Getenv w "BLOBS_DIRECTORY") ""
          then (fst (cmd.user_Current w) ++ "/.lbrynet/blobfiles/")%string
          else cmd.Getenv w "BLOBS_DIRECTORY")
         (cmd.videosLimit v) (cmd.maxVideoSize v) (cmd.Getenv w "LBRYCRD_STRING")
         (cmd.Getenv w "AWS_S3_ID") (cmd.Getenv w "AWS_S3_SECRET")
         (cmd.Getenv w "AWS_S3_REGION") (cmd.Getenv w "AWS_S3_BUCKET")
         (cmd.syncStatus v) (cmd.singleRun v)
         (cmd.mkSyncProperties (cmd.syncFrom v) (cmd.syncUntil v) (cmd.channelID v))
         (cmd.mkAPIConfig (cmd.Getenv w "YOUTUBE_API_KEY") (cmd.Getenv w "LBRY_API")
            (cmd.Getenv w "LBRY_API_TOKEN")
            (if String.eqb (cmd.Getenv w "SLACK_TOKEN") "" then ""
             else match snd (cmd.Hostname w) with
                  | Some _ => "ytsync-unknown"
                  | None => fst (cmd.Hostname w)
                  end))
  /\ (cmd.syncStatus v = ""
      \/ cmd.InSlice w (cmd.syncStatus v) (cmd.SyncStatuses w) = true)
  /\ (cmd.stopOnError v = true -> cmd.maxTries v = cmd.defaultMaxTries)
  /\ 1 <= cmd.maxTries v
  /\ 0 <= cmd.limit v
  /\ cmd.required_env_set w.
Proof.
  on_trace.
  all: intros Hin;
    repeat match goal with
           | H : _ \/ _ |- _ => destruct H
           | H : False |- _ => destruct H
           | H : _ = cmd.sm_Start _ |- _ => first [ discriminate H | injection H as <- ]
           end.
  all: repeat match goal with
                  | H : ?b = _ |- context [if ?b then _ else _] => rewrite H
                  | H : cmd.Hostname _ = _ |- _ => rewrite H in *; clear H
                  end;
    to_props; unfold cmd.required_env_set; cbn [fst snd].
  all: repeat split; try intros ?; by_tests.
Qed.

(** X10.  A sync manager that [ytSync] starts has been validated: its
    status is empty or a known one, stop-on-error comes with the default
    number of tries only, the number of tries is at least 1, the limit
    is not negative, and the API URL, the API token, the YouTube key and
    the four S3 settings are not empty. *)
Theorem ytSync_manager_validated w v sm :
  In (cmd.sm_Start sm) (cmd.ytSync w v) ->
  (cmd.sm_syncStatus sm = ""
   \/ cmd.InSlice w (cmd.sm_syncStatus sm) (cmd.SyncStatuses w) = true)
  /\ (cmd.sm_stopOnError sm = true -> cmd.sm_maxTries sm = cmd.defaultMaxTries)
  /\ 1 <= cmd.sm_maxTries sm
  /\ 0 <= cmd.sm_limit sm
  /\ cmd.ApiURL (cmd.sm_apiConfig sm) <> ""
  /\ cmd.ApiToken (cmd.sm_apiConfig sm) <> ""
  /\ cmd.YoutubeAPIKey (cmd.sm_apiConfig sm) <> ""
  /\ cmd.sm_awsS3ID sm <> "" /\ cmd.sm_awsS3Secret sm <> ""
  /\ cmd.sm_awsS3Region sm <> "" /\ cmd.sm_awsS3Bucket sm <> "".
Proof.
  intros Hin.
  destruct (ytSync_manager w v sm Hin)
    as (-> & Hstatus & Hstop & Hmax & Hlimit & Hurl & Htoken & Hkey & Hid & Hsecret
        & Hregion & Hbucket).
  cbn. repeat split; assumption.
Qed.

(** X11.  What [ytSync] fills in for a started manager.  The one flag
    [--concurrent-jobs] feeds both concurrency arguments.  The blobs
    directory is the variable [BLOBS_DIRECTORY], or the home directory
    of the current user followed by [/.lbrynet/blobfiles/] when the
    variable is not set.  The lbrycrd string is passed as it is, empty
    or not.  The host name of the API configuration is the machine's,
    or [ytsync-unknown] when it cannot be read; it is left empty
    whenever no Slack token is set, since the host name is only looked
    up for Slack. *)
Theorem ytSync_manager_defaults w v sm :
  In (cmd.sm_Start sm) (cmd.ytSync w v) ->
  cmd.sm_concurrentJobs sm = cmd.concurrentJobs v
  /\ cmd.sm_concurrentJobs' sm = cmd.concurrentJobs v
  /\ cmd.sm_blobsDir sm
     = (if String.eqb (cmd.Getenv w "BLOBS_DIRECTORY") ""
        then (fst (cmd.user_Current w) ++ "/.lbrynet/blobfiles/")%string
        else cmd.Getenv w "BLOBS_DIRECTORY")
  /\ cmd.sm_lbrycrdString sm = cmd.Getenv w "LBRYCRD_STRING"
  /\ cmd.HostName (cmd.sm_apiConfig sm)
     = (if String.eqb (cmd.Getenv w "SLACK_TOKEN") "" then ""
        else match snd (cmd.Hostname w) with
             | Some _ => "ytsync-unknown"
             | None => fst (cmd.Hostname w)
             end).
Proof.
  intros Hin. destruct (ytSync_manager w v sm Hin) as (-> & _).
  cbn. repeat split.
Qed.

(** X12.  Slack is initialised exactly when the Slack token is set,
    and then with the token, the channel of [SLACK_CHANNEL] and the
    host name of the machine, replaced by [ytsync-unknown] when it
    cannot be read. *)
Theorem ytSync_InitSlack w v token channel hostname :
  In (cmd.util_InitSlack token channel hostname) (cmd.ytSync w v)
  <-> token <> ""
      /\ token = cmd.Getenv w "SLACK_TOKEN"
      /\ channel = cmd.Getenv w "SLACK_CHANNEL"
      /\ hostname = match snd (cmd.Hostname w) with
                    | Some _ => "ytsync-unknown"
                    | None => fst (cmd.Hostname w)
                    end.
Proof.
  on_trace.
  all: repeat match goal with
                  | H : cmd.Hostname _ = _ |- _ => rewrite H in *; clear H
                  end;
    to_props; cbn [fst snd].
  all: split;
    [ intros Hin;
      repeat match goal with
             | H : _ \/ _ |- _ => destruct H
             | H : False |- _ => destruct H
             | H : _ = cmd.util_InitSlack _ _ _ |- _ =>
                 first [ discriminate H | injection H as <- <- <- ]
             end;
      repeat split; by_tests
    | intros (Hne & -> & -> & ->); first [ contradiction | auto 8 ] ].
Qed.

(** X13.  A run of [ytSync] is one of two kinds.  Either no check
    fails: it starts the manager, once, logs no rejection, reports the
    error of the start to Slack if there is one and ends on the Slack
    message that the process terminated.  Or some check fails: it starts
    nothing, sends nothing to Slack and ends on the one rejection line
    that it logs, which is the line of the first check that fails, in
    the order status, stop-on-error, max-tries, limit, API URL, API
    token, YouTube key, S3 id, S3 secret, S3 region, S3 bucket, current
    user. *)
Theorem ytSync_trace_shape w v :
  let trace := cmd.ytSync w v in
  match cmd.first_rejection w v with
  | None =>
      exists sm,
        filter cmd.is_start trace = [cmd.sm_Start sm]
        /\ filter cmd.is_rejection trace = []
        /\ filter cmd.is_slack_message trace
           = (match cmd.Start w sm with
              | Some e => [cmd.sync_SendErrorToSlack e]
              | None => []
              end ++ [cmd.sync_SendInfoToSlack "Syncing process terminated!"])%list
        /\ last trace = Some (cmd.sync_SendInfoToSlack "Syncing process terminated!")
  | Some e =>
      filter cmd.is_start trace = []
      /\ filter cmd.is_rejection trace = [e]
      /\ filter cmd.is_slack_message trace = []
      /\ last trace = Some e
  end.
Proof.
  cbv zeta. pattern (cmd.first_rejection w v), (cmd.ytSync w v).
  match goal with |- ?P _ _ => set (Q := P) end.
  unfold cmd.first_rejection, cmd.checks, cmd.ytSync.
  explore.
  all: subst Q; cbv beta; cbn.
  all: cbn [snd] in *;
    repeat match goal with
           | H : Some _ = Some _ |- _ => injection H as ->
           | H : Some _ = None |- _ => discriminate H
           | H : None = Some _ |- _ => discriminate H
           end.
  all: first
    [ eexists; split; [ reflexivity |];
      repeat split;
      try match goal with H : cmd.Start _ _ = _ |- _ => rewrite H end;
      reflexivity
    | repeat split; reflexivity ].
Qed.

(** X14.  The default values of the flags pass every check: with the
    required environment variables set and a blobs directory available,
    [ytSync] starts a manager on the defaults of [init] (three tries, no
    limit, one job at a time, 1000 videos, 2048 MB, every date up to
    now). *)
Theorem ytSync_default_flags w now :
  cmd.required_env_set w ->
  cmd.Getenv w "BLOBS_DIRECTORY" <> "" \/ snd (cmd.user_Current w) = None ->
  exists sm,
    In (cmd.sm_Start sm) (cmd.ytSync w (cmd.init now))
    /\ cmd.sm_stopOnError sm = false
    /\ cmd.sm_maxTries sm = 3
    /\ cmd.sm_refill sm = 0
    /\ cmd.sm_limit sm = 0
    /\ cmd.sm_concurrentJobs sm = 1
    /\ cmd.sm_videosLimit sm = 1000
    /\ cmd.sm_maxVideoSize sm = 2048
    /\ cmd.sm_syncStatus sm = ""
    /\ cmd.sm_syncProperties sm = cmd.mkSyncProperties 0 now "".
Proof.
  intros (Hurl & Htoken & Hkey & Hid & Hsecret & Hregion & Hbucket) Hblobs.
  pattern (cmd.ytSync w (cmd.init now)).
  match goal with |- ?P _ => set (Q := P) end.
  unfold cmd.ytSync. cbn. explore; subst Q; cbv beta; cbn.
  all: to_props; cbn [snd] in *.
  all: first [ solve [ exfalso; by_tests ]
                  | eexists; split; [ solve [ auto 8 ] | repeat split; reflexivity ] ].
Qed.

(** ** The properties of [ytSync] in the sample world *)

Lemma ytSync_manager_validated_witness :
  In (cmd.sm_Start sample_manager) (cmd.ytSync sample_world (cmd.init 0))
  /\ 1 <= cmd.sm_maxTries sample_manager
  /\ cmd.sm_awsS3Bucket sample_manager <> "".
Proof.
  assert (Hin : In (cmd.sm_Start sample_manager) (cmd.ytSync sample_world (cmd.init 0)))
    by (vm_compute; auto 8).
  split; [ exact Hin |].
  destruct (ytSync_manager_validated sample_world (cmd.init 0) sample_manager Hin)
    as (_ & _ & Hmax & _ & _ & _ & _ & _ & _ & _ & Hbucket).
  split; [ exact Hmax | exact Hbucket ].
Defined.

(** No Slack token and no blobs directory in the sample world: the host
    name stays empty and the blobs directory is under the home. *)
Lemma ytSync_manager_defaults_witness :
  In (cmd.sm_Start sample_manager) (cmd.ytSync sample_world (cmd.init 0))
  /\ cmd.sm_blobsDir sample_manager = "/home/ytsync/.lbrynet/blobfiles/"
  /\ cmd.HostName (cmd.sm_apiConfig sample_manager) = "".
Proof.
  assert (Hin : In (cmd.sm_Start sample_manager) (cmd.ytSync sample_world (cmd.init 0)))
    by (vm_compute; auto 8).
  split; [ exact Hin |].
  destruct (ytSync_manager_defaults sample_world (cmd.init 0) sample_manager Hin)
    as (_ & _ & Hblobs & _ & Hhost).
  split; [ exact Hblobs | exact Hhost ].
Defined.

Lemma ytSync_default_flags_witness :
  cmd.required_env_set sample_world
  /\ exists sm,
       In (cmd.sm_Start sm) (cmd.ytSync sample_world (cmd.init 0))
       /\ cmd.sm_maxTries sm = 3
       /\ cmd.sm_concurrentJobs sm = 1.
Proof.
  assert (Henv : cmd.required_env_set sample_world)
    by (unfold cmd.required_env_set; cbn; repeat split; discriminate).
  split; [ exact Henv |].
  destruct (ytSync_default_flags sample_world 0 Henv (or_intror eq_refl))
    as (sm & Hin & _ & Hmax & _ & _ & Hjobs & _).
  exists sm. auto.
Defined.
